(** * SimpleDirectoryReader: file discovery, extractor dispatch, metadata merge

    A shallow embedding of [lazyllm/tools/rag/dataReader.py] and the
    properties of its discovery engine ([_add_files]), of its dispatch and
    merge engine ([load_file]) and of its loader ([_load_data]).

    Collaborators that live outside the module (the filesystem adapter, the
    concrete readers, [fnmatch], the codec, the process pool) are taken as
    parameters or modelled after the Python library they come from. *)

From Stdlib Require Import ZArith List Ascii String Bool Lia.
From stdpp Require Import base option list gmap strings sorting pretty.

(** ** Python runtime fragments used by the module *)

Module Py.

(** [str.lower()] on the ASCII range. *)
Definition lower_char (c : ascii) : ascii :=
  let n := N_of_ascii c in
  if ((65 <=? n)%N && (n <=? 90)%N)%bool then ascii_of_N (n + 32) else c.

Fixpoint lower (s : string) : string :=
  match s with
  | EmptyString => EmptyString
  | String c s' => String (lower_char c) (lower s')
  end.

(** [s.startswith(p)] *)
Definition startswith (s p : string) : bool := String.prefix p s.

(** [s.endswith(p)] *)
Definition endswith (s p : string) : bool :=
  String.prefix (String.rev p) (String.rev s).

(** [s.split(sep)] for a one-character separator. *)
Fixpoint split (sep : ascii) (s : string) : list string :=
  match s with
  | EmptyString => [EmptyString]
  | String c s' =>
      if Ascii.eqb c sep then EmptyString :: split sep s'
      else match split sep s' with
           | x :: xs => String c x :: xs
           | [] => [String c EmptyString]
           end
  end.

(** [sep.join(l)] *)
Fixpoint join (sep : string) (l : list string) : string :=
  match l with
  | [] => EmptyString
  | [x] => x
  | x :: xs => x +:+ sep +:+ join sep xs
  end.

(** [s.rfind(".")]: index of the last dot, if any. *)
Fixpoint rfind_dot_from (i : nat) (s : string) (last : option nat) : option nat :=
  match s with
  | EmptyString => last
  | String c s' =>
      rfind_dot_from (S i) s' (if Ascii.eqb c "."%char then Some i else last)
  end.
Definition rfind_dot (s : string) : option nat := rfind_dot_from 0 s None.

(** [s[i:]] *)
Fixpoint drop_string (i : nat) (s : string) : string :=
  match i, s with
  | S k, String _ s' => drop_string k s'
  | _, _ => s
  end.

(** [os.path.join(a, b)] of [posixpath]. *)
Definition ospath_join (a b : string) : string :=
  if startswith b "/" then b
  else if (String.eqb a EmptyString || endswith a "/")%bool then a +:+ b
  else a +:+ "/" +:+ b.

(** [x or d] for an optional value whose falsy inhabitant equals [d]. *)
Definition or_default {A} (x : option A) (d : A) : A := default d x.

End Py.

(** ** Paths

    A [pathlib] pure POSIX path is the tuple of its [parts]; an absolute path
    carries its root (["/"], or ["//"] for exactly two leading slashes) as
    first part. *)

Module PurePath.

Definition t := list string.

Definition is_root (s : string) : bool := Py.startswith s "/".

(** [PurePosixPath(s)]: split at the separator, drop empty and ["."]
    components, keep the root. *)
Definition of_string (s : string) : t :=
  let root :=
    if Py.startswith s "/" then
      if (Py.startswith s "//" && negb (Py.startswith s "///"))%bool
      then ["//"] else ["/"]
    else [] in
  root ++ List.filter (fun x => negb (String.eqb x EmptyString || String.eqb x "."))
                      (Py.split "/"%char s).

(** [p.parts] *)
Definition parts (p : t) : list string := p.

(** [str(p)] *)
Definition str (p : t) : string :=
  match p with
  | [] => "."
  | r :: rest => if is_root r then r +:+ Py.join "/" rest else Py.join "/" p
  end.

(** [p.name] *)
Definition name (p : t) : string :=
  match List.rev p with
  | [] => EmptyString
  | n :: _ => if is_root n then EmptyString else n
  end.

(** [p.suffix]: the final component's last dot-suffix; empty when the dot
    is the first or the last character of the name. *)
Definition suffix (p : t) : string :=
  let n := name p in
  match Py.rfind_dot n with
  | Some i =>
      if ((0 <? i) && (i <? String.length n - 1))%nat%bool
      then Py.drop_string i n else EmptyString
  | None => EmptyString
  end.

(** [p / q]: an absolute right operand replaces the left one. *)
Definition truediv (p q : t) : t :=
  match q with
  | r :: _ => if is_root r then q else p ++ q
  | [] => p
  end.

(** Ordering of paths: [pathlib] compares the part tuples, each part as a
    string. *)
Definition compare (p q : t) : comparison := list_compare String.compare p q.
Definition leb (p q : t) : bool :=
  match compare p q with Gt => false | _ => true end.
Definition le (p q : t) : Prop := leb p q = true.
Definition lt (p q : t) : Prop := compare p q = Lt.

End PurePath.


(** ** Data model *)

(** Scalar values of a metadata record. *)
Inductive MetaValue :=
  | VStr (s : string)
  | VInt (n : Z)
  | VBool (b : bool).

(** A metadata record is a Python [dict] from attribute key to scalar. *)
Abbreviation MetadataRecord := (gmap string MetaValue).

(** Modelled from the spec: the document node of [.doc_node], which is not
    part of this module: a payload, a metadata record, an identity ([None]
    stands for the identity the node constructor draws by itself) and the two
    lists of metadata keys hidden from embedding and from generation. *)
Record DocNode := mkDocNode {
  text : string;
  _global_metadata : option MetadataRecord;
  _uid : option string;
  _excluded_embed_metadata_keys : list string;
  _excluded_llm_metadata_keys : list string;
}.

(** [DocNode(text=data, global_metadata=md)] *)
Definition DocNode_new (data : string) (md : MetadataRecord) : DocNode :=
  {| text := data; _global_metadata := Some md; _uid := None;
     _excluded_embed_metadata_keys := [];
     _excluded_llm_metadata_keys := [] |}.

(** ** Effects: exceptions and the log *)

Inductive exn :=
  | ValueError (msg : string)
  | TypeError (msg : string)
  | OSError (msg : string)
  | ReaderError (msg : string).

Inductive res (A : Type) :=
  | Ok (a : A)
  | Raise (e : exn).
Arguments Ok {A} a.
Arguments Raise {A} e.

Inductive Level := DEBUG | INFO | WARNING | ERROR.

(** What a run leaves behind besides its result: log records and the
    creation of a worker pool of a given size. *)
Inductive Event :=
  | LOG (lvl : Level) (msg : string)
  | POOL (processes : nat).

(** A computation emits events and then returns or raises. *)
Definition Eff (A : Type) : Type := list Event * res A.

#[global] Instance Eff_ret : MRet Eff := λ A a, ([], Ok a).
#[global] Instance Eff_bind : MBind Eff := λ A B f m,
  match m with
  | (l, Ok a) => let '(l', r) := f a in (l ++ l', r)
  | (l, Raise e) => (l, Raise e)
  end.

Definition raise {A} (e : exn) : Eff A := ([], Raise e).
Definition log (lvl : Level) (msg : string) : Eff unit := ([LOG lvl msg], Ok tt).
Definition lift {A} (r : res A) : Eff A := ([], r).

Definition to_option {X} (r : res X) : option X :=
  match r with Ok a => Some a | Raise _ => None end.

(** The events and the returned value ([None] when the run raised). *)
Definition events {A} (m : Eff A) : list Event := m.1.
Definition value {A} (m : Eff A) : option A :=
  match m.2 with Ok a => Some a | Raise _ => None end.

(** ** Collaborators *)

(** The filesystem adapter ([fsspec.AbstractFileSystem]). [open] is
    [fs.open(path)] together with the bytes the file object holds; it raises
    when the file cannot be opened. [stat] is taken to return: it is called
    on files that discovery or the constructor has found. *)
Record AbstractFileSystem := {
  isfile : string → bool;
  isdir : string → bool;
  glob : string → list string;
  open : string → res (list Byte.byte);
  _parent : string → string;
  stat : string → gmap string MetaValue;
  is_default_fs : bool;
}.

(** A reader returns one node or a sequence of nodes, or raises. *)
Inductive ReaderOutput :=
  | OneNode (d : DocNode)
  | NodeList (ds : list DocNode).

Definition Reader : Type :=
  PurePath.t → option AbstractFileSystem → res ReaderOutput.

(** A registry entry is a reader class, instantiated at dispatch, or an
    already built callable. *)
Inductive Extractor :=
  | ReaderType (cls : unit → Reader)
  | ReaderInstance (r : Reader).

(** Python [dict] with string keys: insertion-ordered, assignment to a
    present key keeps its position. *)
Module Dict.
Definition t (V : Type) : Type := list (string * V).

Definition keys {V} (d : t V) : list string := d.*1.

Definition contains {V} (d : t V) (k : string) : bool :=
  existsb (String.eqb k) (keys d).

Fixpoint setitem {V} (d : t V) (k : string) (v : V) : t V :=
  match d with
  | [] => [(k, v)]
  | (k', v') :: r =>
      if String.eqb k k' then (k, v) :: r else (k', v') :: setitem r k v
  end.

Fixpoint getitem {V} (d : t V) (k : string) : option V :=
  match d with
  | [] => None
  | (k', v') :: r => if String.eqb k k' then Some v' else getitem r k
  end.

Definition wf {V} (d : t V) : Prop := NoDup (keys d).
End Dict.

(** Registries are mutable objects: the store maps a reference to the
    dictionary it currently holds. *)
Definition loc := positive.
Abbreviation heap := (gmap loc (Dict.t Extractor)).

Definition deref (h : heap) (l : loc) : Dict.t Extractor := default [] (h !! l).

Definition alloc (h : heap) (d : Dict.t Extractor) : heap * loc :=
  let l := fresh (dom h) in (<[l := d]> h, l).

(** The configuration flags the module reads. *)
Record Config := {
  rag_filename_as_id : bool;
  use_fallback_reader : bool;
  data_path : string;
}.

(** The host: CPU count, working directory, [fnmatch.fnmatch], the default
    filesystem, MIME guessing and date formatting. [decode encoding bytes] is
    [f.read().decode(encoding)]: [None] stands for any exception raised
    inside the [try] of lines 240-245. *)
Record Host := {
  cpu_count : nat;
  cwd : string;
  fnmatch : string → string → bool;
  decode : string → list Byte.byte → option string;
  get_default_fs : AbstractFileSystem;
  guess_type : string → option string;
  strftime : bool → Z → option string;
}.

(** The metadata keys of [.global_metadata]. *)
Record GlobalMetadata := {
  RAG_DOC_PATH : string;
  RAG_DOC_FILE_NAME : string;
  RAG_DOC_FILE_TYPE : string;
  RAG_DOC_FILE_SIZE : string;
  RAG_DOC_CREATION_DATE : string;
  RAG_DOC_LAST_MODIFIED_DATE : string;
  RAG_DOC_LAST_ACCESSED_DATE : string;
}.

(** The reader classes of [.readers]. *)
Record Readers := {
  PDFReader : unit → Reader;
  DocxReader : unit → Reader;
  HWPReader : unit → Reader;
  PPTXReader : unit → Reader;
  ImageReader : unit → Reader;
  IPYNBReader : unit → Reader;
  EpubReader : unit → Reader;
  MarkdownReader : unit → Reader;
  MboxReader : unit → Reader;
  PandasCSVReader : unit → Reader;
  PandasExcelReader : unit → Reader;
  VideoAudioReader : unit → Reader;
}.

(** ** The worker pool

    [multiprocessing.Pool.starmap]: the task list is cut into chunks, the
    chunks are run by the workers and finish in an order the program does not
    control; every chunk's result is stored at the chunk's own position. *)

Module Pool.
Section Pool.
Context {A B : Type}.

(** The chunk size [_map_async] picks when none is given. *)
Definition chunksize (len processes : nat) : nat :=
  if len =? 0 then 0
  else
    let q := len / (processes * 4) in
    if len mod (processes * 4) =? 0 then q else S q.

(** [_get_tasks]: successive slices of [size] tasks, until the list is
    used up. *)
Fixpoint get_tasks (fuel size : nat) (l : list A) : list (list A) :=
  match fuel with
  | 0 => []
  | S k =>
      match take size l with
      | [] => []
      | x => x :: get_tasks k size (drop size l)
      end
  end.

(** [mapstar] inside a worker: the chunk's calls in order; the first
    exception ends the chunk. *)
Fixpoint mapstar (func : A → res B) (chunk : list A) : res (list B) :=
  match chunk with
  | [] => Ok []
  | x :: rest =>
      match func x with
      | Raise e => Raise e
      | Ok y =>
          match mapstar func rest with
          | Raise e => Raise e
          | Ok ys => Ok (y :: ys)
          end
      end
  end.

(** [MapResult]: one slot per chunk, and the first exception received. *)
Record MapResult := {
  _success : bool;
  _value : list (option (list B));
  _error : option exn;
}.

Definition MapResult_new (number_of_chunks : nat) : MapResult :=
  {| _success := true; _value := replicate number_of_chunks None;
     _error := None |}.

(** [MapResult._set(i, (success, result))] *)
Definition _set (mr : MapResult) (i : nat) (r : res (list B)) : MapResult :=
  match r with
  | Ok ys =>
      if _success mr
      then {| _success := true; _value := <[i := Some ys]> (_value mr);
              _error := _error mr |}
      else mr
  | Raise e =>
      if _success mr
      then {| _success := false; _value := _value mr; _error := Some e |}
      else mr
  end.

(** [MapResult.get()], once every chunk has reported. *)
Definition get (mr : MapResult) : res (list B) :=
  if _success mr then Ok (concat (map (default []) (_value mr)))
  else Raise (default (TypeError "no exception") (_error mr)).

(** The order in which the chunks finish, drawn from a scheduling oracle:
    at every step one of the pending chunks finishes. *)
Fixpoint completion_order (oracle : list nat) (pending : list nat) (n : nat)
  : list nat :=
  match n with
  | 0 => []
  | S n' =>
      let k := hd 0 oracle `mod` length pending in
      match pending !! k with
      | Some c => c :: completion_order (tl oracle) (delete k pending) n'
      | None => []
      end
  end.

Definition starmap (processes : nat) (oracle : list nat)
    (func : A → res B) (iterable : list A) : res (list B) :=
  let size := chunksize (length iterable) processes in
  let task_batches := get_tasks (length iterable) size iterable in
  let n := length task_batches in
  let order := completion_order oracle (seq 0 n) n in
  get (fold_left
         (λ mr i, _set mr i (mapstar func (default [] (task_batches !! i))))
         order (MapResult_new n)).
End Pool.
End Pool.


(** [functools.reduce(lambda x, y: x + y, results)] without initial value. *)
Definition reduce_add {A} (results : list (list A)) : res (list A) :=
  match results with
  | [] => Raise (TypeError "reduce() of empty iterable with no initial value")
  | x :: rest => Ok (fold_left (λ x y, x ++ y) rest x)
  end.

(** ** The module *)

(** Keyword arguments of the constructor. *)
Module Args.
Record t := {
  input_dir : option string;
  input_files : option (list string);
  exclude : option (list string);
  exclude_hidden : bool;
  recursive : bool;
  encoding : string;
  filename_as_id : bool;
  required_exts : option (list string);
  file_extractor : option loc;
  fs : option AbstractFileSystem;
  metadata_genf : option (string → MetadataRecord);
  num_files_limit : option Z;
  return_trace : bool;
  metadatas : option (list (option MetadataRecord));
}.

(** The defaults of the signature. *)
Definition defaults : t :=
  {| input_dir := None; input_files := None; exclude := None;
     exclude_hidden := true; recursive := false; encoding := "utf-8";
     filename_as_id := false; required_exts := None; file_extractor := None;
     fs := None; metadata_genf := None; num_files_limit := None;
     return_trace := false; metadatas := None |}.
End Args.

(** The instance attributes. [_file_extractor] is a reference: the
    constructor keeps the caller's dictionary itself, not a copy. *)
Record SimpleDirectoryReader := {
  _fs : AbstractFileSystem;
  _encoding : string;
  _exclude : option (list string);
  _recursive : bool;
  _exclude_hidden : bool;
  _required_exts : option (list string);
  _num_files_limit : option Z;
  _metadatas : option (list (option MetadataRecord));
  _input_files : list PurePath.t;
  _file_extractor : loc;
  _metadata_genf : string → MetadataRecord;
}.

Definition with_input_files (self : SimpleDirectoryReader)
    (files : list PurePath.t) : SimpleDirectoryReader :=
  {| _fs := _fs self; _encoding := _encoding self; _exclude := _exclude self;
     _recursive := _recursive self; _exclude_hidden := _exclude_hidden self;
     _required_exts := _required_exts self;
     _num_files_limit := _num_files_limit self;
     _metadatas := _metadatas self; _input_files := files;
     _file_extractor := _file_extractor self;
     _metadata_genf := _metadata_genf self |}.

#[global] Instance PurePath_le_dec (p q : PurePath.t) :
  Decision (PurePath.le p q).
Proof. unfold PurePath.le. apply _. Defined.

Section DataReader.
Context (config : Config) (host : Host) (keys : GlobalMetadata)
        (readers : Readers).

(** The class attribute [default_file_readers] is a dictionary object of
    its own; this is what the class statement stores in it. *)
Variable default_file_readers : loc.

Definition default_file_readers_table : Dict.t Extractor :=
  [ ("*.pdf", ReaderType (PDFReader readers));
    ("*.docx", ReaderType (DocxReader readers));
    ("*.hwp", ReaderType (HWPReader readers));
    ("*.pptx", ReaderType (PPTXReader readers));
    ("*.ppt", ReaderType (PPTXReader readers));
    ("*.pptm", ReaderType (PPTXReader readers));
    ("*.gif", ReaderType (ImageReader readers));
    ("*.jpeg", ReaderType (ImageReader readers));
    ("*.jpg", ReaderType (ImageReader readers));
    ("*.png", ReaderType (ImageReader readers));
    ("*.webp", ReaderType (ImageReader readers));
    ("*.ipynb", ReaderType (IPYNBReader readers));
    ("*.epub", ReaderType (EpubReader readers));
    ("*.md", ReaderType (MarkdownReader readers));
    ("*.mbox", ReaderType (MboxReader readers));
    ("*.csv", ReaderType (PandasCSVReader readers));
    ("*.xls", ReaderType (PandasExcelReader readers));
    ("*.xlsx", ReaderType (PandasExcelReader readers));
    ("*.mp3", ReaderType (VideoAudioReader readers));
    ("*.mp4", ReaderType (VideoAudioReader readers)) ].

(** *** Generated metadata *)

Definition _file_timestamp_format (timestamp : option MetaValue)
    (include_time : bool) : option string :=
  match timestamp with
  | Some (VInt t) => strftime host include_time t
  | _ => None
  end.

Definition str_of_value (v : MetaValue) : string :=
  match v with
  | VStr s => s
  | VInt n => pretty n
  | VBool b => if b then "True" else "False"
  end.

Definition basename (p : string) : string :=
  List.last (Py.split "/"%char p) EmptyString.

Definition _DefaultFileMetadataFunc (fs : option AbstractFileSystem)
    (file_path : string) : MetadataRecord :=
  let fs := Py.or_default fs (get_default_fs host) in
  let stat_result := stat fs file_path in
  let file_name :=
    match stat_result !! "name" with
    | Some v => basename (str_of_value v)
    | None => basename file_path
    end in
  let creation_date :=
    _file_timestamp_format (stat_result !! "created") false in
  let last_modified_date :=
    _file_timestamp_format (stat_result !! "mtime") false in
  let last_accessed_date :=
    _file_timestamp_format (stat_result !! "atime") false in
  let default_meta : gmap string (option MetaValue) :=
    <[RAG_DOC_LAST_ACCESSED_DATE keys := VStr <$> last_accessed_date]>
    (<[RAG_DOC_LAST_MODIFIED_DATE keys := VStr <$> last_modified_date]>
    (<[RAG_DOC_CREATION_DATE keys := VStr <$> creation_date]>
    (<[RAG_DOC_FILE_SIZE keys := stat_result !! "size"]>
    (<[RAG_DOC_FILE_TYPE keys := VStr <$> guess_type host file_path]>
    (<[RAG_DOC_FILE_NAME keys := Some (VStr file_name)]>
    (<[RAG_DOC_PATH keys := Some (VStr file_path)]> ∅)))))) in
  omap id default_meta.

(** *** Discovery *)

Definition in_list (x : string) (l : list string) : bool :=
  existsb (String.eqb x) l.

Definition _is_hidden (path : PurePath.t) : bool :=
  existsb (λ part, Py.startswith part "." && negb (in_list part ["."; ".."]))
          (PurePath.parts path).

(** The exclusion sets of [_add_files]: the matches of every exclude
    pattern, directories apart from files. *)
Definition rejected (self : SimpleDirectoryReader) (input_dir : PurePath.t)
  : gset PurePath.t * gset PurePath.t :=
  match _exclude self with
  | None => (∅, ∅)
  | Some patterns =>
      fold_left
        (λ acc excluded_pattern,
           let excluded_glob :=
             if _recursive self
             then PurePath.truediv
                    (PurePath.truediv input_dir (PurePath.of_string "**"))
                    (PurePath.of_string excluded_pattern)
             else PurePath.truediv input_dir
                    (PurePath.of_string excluded_pattern) in
           fold_left
             (λ '(rejected_files, rejected_dirs) file,
                if isdir (_fs self) file
                then (rejected_files,
                      {[PurePath.of_string file]} ∪ rejected_dirs)
                else ({[PurePath.of_string file]} ∪ rejected_files,
                      rejected_dirs))
             (glob (_fs self) (PurePath.str excluded_glob)) acc)
        patterns (∅, ∅)
  end.

(** The loop over the expanded entries; it grows [all_files]. The rejected
    directories are visited in the order of [elements]: which of several
    enclosing rejected directories the warning names is not fixed by the
    source either. *)
Fixpoint scan (self : SimpleDirectoryReader)
    (rejected_files rejected_dirs : gset PurePath.t)
    (file_refs : list string) (all_files : gset PurePath.t)
  : Eff (gset PurePath.t) :=
  match file_refs with
  | [] => mret all_files
  | ref :: rest =>
      let ref := PurePath.of_string ref in
      let is_dir := isdir (_fs self) (PurePath.str ref) in
      let skip_hidden := _exclude_hidden self && _is_hidden ref in
      let skip_bad_exts :=
        match _required_exts self with
        | Some exts => negb (in_list (PurePath.suffix ref) exts)
        | None => false
        end in
      let skip_excluded := bool_decide (ref ∈ rejected_files) in
      skip_excluded ←
        (if negb skip_excluded then
           let ref_parent_dir :=
             if is_dir then PurePath.str ref
             else _parent (_fs self) (PurePath.str ref) in
           match List.find
                   (λ rejected_dir,
                      Py.startswith ref_parent_dir (PurePath.str rejected_dir))
                   (elements rejected_dirs) with
           | Some rejected_dir =>
               log WARNING
                 ("Skipping " +:+ PurePath.str ref
                  +:+ " because it in parent dir " +:+ ref_parent_dir
                  +:+ " which is in " +:+ PurePath.str rejected_dir +:+ ".");;
               mret true
           | None => mret false
           end
         else mret true);
      if is_dir || skip_hidden || skip_bad_exts || skip_excluded
      then scan self rejected_files rejected_dirs rest all_files
      else scan self rejected_files rejected_dirs rest ({[ref]} ∪ all_files)
  end.

Definition file_refs (self : SimpleDirectoryReader) (input_dir : PurePath.t)
  : list string :=
  if _recursive self
  then glob (_fs self) (PurePath.str input_dir +:+ "/**/*")
  else glob (_fs self) (PurePath.str input_dir +:+ "/*").

Definition _add_files (self : SimpleDirectoryReader) (input_dir : PurePath.t)
  : Eff (list PurePath.t) :=
  let '(rejected_files, rejected_dirs) := rejected self input_dir in
  all_files ← scan self rejected_files rejected_dirs
                   (file_refs self input_dir) ∅;
  let new_input_files := merge_sort PurePath.le (elements all_files) in
  if length new_input_files =? 0
  then raise (ValueError ("No files found in " +:+ PurePath.str input_dir +:+ "."))
  else
    let new_input_files :=
      match _num_files_limit self with
      | Some limit =>
          if (0 <? limit)%Z then take (Z.to_nat limit) new_input_files
          else new_input_files
      | None => new_input_files
      end in
    log DEBUG ("[SimpleDirectoryReader] Total files add: "
               +:+ pretty (length new_input_files));;
    log INFO ("input_files: ["
              +:+ Py.join ", " (PurePath.str <$> new_input_files) +:+ "]");;
    mret new_input_files.

(** *** Construction *)

(** The loop over [input_files]: a path that is no file is retried under
    the configured data root. *)
Fixpoint resolve_input_files (fs : AbstractFileSystem) (paths : list string)
  : Eff (list PurePath.t) :=
  match paths with
  | [] => mret []
  | path :: rest =>
      path ← (if isfile fs path then mret path
              else
                let path := Py.ospath_join (data_path config) path in
                if isfile fs path then mret path
                else raise (ValueError ("File " +:+ path +:+ " does not exist.")));
      rest ← resolve_input_files fs rest;
      mret (PurePath.of_string path :: rest)
  end.

Definition __init__ (a : Args.t) (h : heap)
  : heap * Eff SimpleDirectoryReader :=
  let has_dir :=
    match Args.input_dir a with
    | Some d => negb (String.eqb d EmptyString)
    | None => false
    end in
  let has_files :=
    match Args.input_files a with Some (_ :: _) => true | _ => false end in
  if (negb has_dir && negb has_files) || (has_dir && has_files)
  then (h, raise (ValueError "Must provide either `input_dir` or `input_files`."))
  else
    let fs := Py.or_default (Args.fs a) (get_default_fs host) in
    (* [file_extractor or {}]: a missing or empty dictionary is replaced
       by a new empty one, any other is kept by reference *)
    let '(h', file_extractor) :=
      match Args.file_extractor a with
      | Some l => match deref h l with [] => alloc h [] | _ => (h, l) end
      | None => alloc h []
      end in
    let self :=
      {| _fs := fs; _encoding := Args.encoding a;
         _exclude := Args.exclude a; _recursive := Args.recursive a;
         _exclude_hidden := Args.exclude_hidden a;
         _required_exts := Args.required_exts a;
         _num_files_limit := Args.num_files_limit a;
         _metadatas := Args.metadatas a; _input_files := [];
         _file_extractor := file_extractor;
         _metadata_genf :=
           match Args.metadata_genf a with
           | Some g => g
           | None => _DefaultFileMetadataFunc (Some fs)
           end |} in
    let found : Eff (list PurePath.t) :=
      if has_files
      then resolve_input_files fs (default [] (Args.input_files a))
      else
        let input_dir := default EmptyString (Args.input_dir a) in
        if negb (isdir fs input_dir)
        then raise (ValueError ("Directory " +:+ input_dir +:+ " does not exist."))
        else _add_files self (PurePath.of_string input_dir) in
    match found with
    | (evs, Raise e) => (h, (evs, Raise e))
    | (evs, Ok files) =>
        (h',
         (evs ++ (if Args.filename_as_id a
                  then [LOG WARNING "Argument `filename_as_id` for DataReader is no longer used"]
                  else []),
          Ok (with_input_files self files)))
    end.

(** *** Dispatch and merge *)

Definition _exclude_metadata (documents : list DocNode) : list DocNode :=
  let file_keys :=
    ["file_name"; "file_type"; "file_size"; "creation_date";
     "last_modified_date"; "last_accessed_date"] in
  (λ doc,
     {| text := text doc; _global_metadata := _global_metadata doc;
        _uid := _uid doc;
        _excluded_embed_metadata_keys :=
          _excluded_embed_metadata_keys doc ++ file_keys;
        _excluded_llm_metadata_keys :=
          _excluded_llm_metadata_keys doc ++ file_keys |}) <$> documents.

(** The glob a registry pattern is tested as (lines 211-215; the value
    computed on line 210 is overwritten before use). *)
Definition match_pattern (pattern : string) : string :=
  let pt_lower := Py.lower (PurePath.str (PurePath.of_string pattern)) in
  if Py.startswith pt_lower "*" then pt_lower
  else
    let base := Py.lower (cwd host) in
    Py.ospath_join base pt_lower.

Definition matches (input_file : PurePath.t) (pattern : string) : bool :=
  let filename_lower := Py.lower (PurePath.str input_file) in
  fnmatch host filename_lower (match_pattern pattern).

(** [dict.update]: the keys of the argument win. *)
Definition update (metadata other : MetadataRecord) : MetadataRecord :=
  other ∪ metadata.

(** The three-tier merge of lines 223-225. *)
Definition merge_metadata (metadata_generated : MetadataRecord)
    (reader_attached : option MetadataRecord)
    (user_metadata : MetadataRecord) : MetadataRecord :=
  let metadata := metadata_generated in
  let metadata := update metadata (Py.or_default reader_attached ∅) in
  update metadata user_metadata.

Definition set_global_metadata (doc : DocNode) (metadata : MetadataRecord)
  : DocNode :=
  {| text := text doc; _global_metadata := Some metadata; _uid := _uid doc;
     _excluded_embed_metadata_keys := _excluded_embed_metadata_keys doc;
     _excluded_llm_metadata_keys := _excluded_llm_metadata_keys doc |}.

Definition set_uid (doc : DocNode) (uid : string) : DocNode :=
  {| text := text doc; _global_metadata := _global_metadata doc;
     _uid := Some uid;
     _excluded_embed_metadata_keys := _excluded_embed_metadata_keys doc;
     _excluded_llm_metadata_keys := _excluded_llm_metadata_keys doc |}.

(** [extractor() if isinstance(extractor, type) else extractor] *)
Definition instantiate (extractor : Extractor) : Reader :=
  match extractor with
  | ReaderType cls => cls tt
  | ReaderInstance r => r
  end.

(** [{'fs': fs} if fs and not is_default_fs(fs) else {}] *)
Definition reader_kwargs (fs : option AbstractFileSystem)
  : option AbstractFileSystem :=
  match fs with
  | Some f => if negb (is_default_fs f) then Some f else None
  | None => None
  end.

(** The body of the loop once a pattern has matched (lines 218-231). *)
Definition dispatch (input_file : PurePath.t)
    (metadata_generated user_metadata : MetadataRecord)
    (extractor : Extractor) (fs : option AbstractFileSystem)
  : Eff (list DocNode) :=
  let reader := instantiate extractor in
  let kwargs := reader_kwargs fs in
  docs ← lift (reader input_file kwargs);
  let docs := match docs with OneNode d => [d] | NodeList ds => ds end in
  let docs :=
    (λ doc, set_global_metadata doc
              (merge_metadata metadata_generated (_global_metadata doc)
                              user_metadata)) <$> docs in
  let docs :=
    if rag_filename_as_id config
    then imap (λ i doc,
                 set_uid doc (PurePath.str input_file +:+ "_index_" +:+ pretty i))
              docs
    else docs in
  mret docs.

(** The [else] of the loop: no pattern matched (lines 234-245). *)
Definition fallback (input_file : PurePath.t) (user_metadata : MetadataRecord)
    (encoding : string) (fs : option AbstractFileSystem)
  : Eff (list DocNode) :=
  if negb (use_fallback_reader config)
  then
    log WARNING ("no pattern found for " +:+ PurePath.str input_file
                 +:+ "! If you want fallback to default Reader, set `LAZYLLM_USE_FALLBACK_READER=True`.");;
    mret []
  else
    let fs := Py.or_default fs (get_default_fs host) in
    f ← lift (open fs (PurePath.str input_file));
    match decode host encoding f with
    | Some data => mret [DocNode_new data user_metadata]
    | None =>
        log ERROR ("no pattern found for " +:+ PurePath.str input_file
                   +:+ " and it is not utf-8, skip it!");;
        mret []
    end.

(** The [for ... else] over the registry items, in insertion order. *)
Fixpoint load_file_loop (input_file : PurePath.t)
    (metadata_generated user_metadata : MetadataRecord)
    (encoding : string) (fs : option AbstractFileSystem)
    (items : list (string * Extractor)) : Eff (list DocNode) :=
  match items with
  | [] => fallback input_file user_metadata encoding fs
  | (pattern, extractor) :: rest =>
      if matches input_file pattern
      then dispatch input_file metadata_generated user_metadata extractor fs
      else load_file_loop input_file metadata_generated user_metadata
             encoding fs rest
  end.

Definition load_file (input_file : PurePath.t)
    (metadata_genf : option (string → MetadataRecord))
    (file_extractor : Dict.t Extractor) (encoding : string)
    (fs : option AbstractFileSystem) (metadata : option MetadataRecord)
  : Eff (list DocNode) :=
  let user_metadata := Py.or_default metadata ∅ in
  let metadata_generated :=
    match metadata_genf with
    | Some g => g (PurePath.str input_file)
    | None => ∅
    end in
  load_file_loop input_file metadata_generated user_metadata encoding fs
    file_extractor.

(** *** Loading *)

(** Lines 254-256: the registry used for dispatch is a copy of the
    caller's dictionary, completed with the defaults whose key it lacks. *)
Definition build_file_readers (self : SimpleDirectoryReader) (h : heap)
  : heap * loc :=
  let '(h, file_readers) := alloc h (deref h (_file_extractor self)) in
  let h :=
    fold_left
      (λ h '(key, func),
         if negb (Dict.contains (deref h file_readers) key)
         then <[file_readers := Dict.setitem (deref h file_readers) key func]> h
         else h)
      (deref h default_file_readers) h in
  (h, file_readers).

(** [zip(process_file, self._metadatas or repeat(None))] *)
Definition zip_metadatas (process_file : list PurePath.t)
    (metadatas : option (list (option MetadataRecord)))
  : list (PurePath.t * option MetadataRecord) :=
  match metadatas with
  | Some (m :: ms) => zip process_file (m :: ms)
  | _ => (λ input_file, (input_file, None)) <$> process_file
  end.

(** The sequential loop of lines 271-275. *)
Fixpoint load_loop (run : PurePath.t * option MetadataRecord → Eff (list DocNode))
    (tasks : list (PurePath.t * option MetadataRecord))
    (documents : list DocNode) : Eff (list DocNode) :=
  match tasks with
  | [] => mret documents
  | task :: rest =>
      docs ← run task;
      load_loop run rest (documents ++ docs)
  end.

(** [oracle] stands for the scheduling of the worker processes. Log
    records written inside a worker stay in that worker's process; the
    events of a pool run are those of the calling process. The progress
    bar of [show_progress] only reports. *)
Definition _load_data (self : SimpleDirectoryReader) (show_progress : bool)
    (num_workers : option Z) (fs : option AbstractFileSystem)
    (oracle : list nat) (h : heap) : heap * Eff (list DocNode) :=
  let fs := Py.or_default fs (_fs self) in
  let process_file := _input_files self in
  let '(h, file_readers) := build_file_readers self h in
  let run : PurePath.t * option MetadataRecord → Eff (list DocNode) :=
    λ '(input_file, metadata),
      load_file input_file (Some (_metadata_genf self)) (deref h file_readers)
        (_encoding self) (Some (_fs self)) metadata in
  let tasks := zip_metadatas process_file (_metadatas self) in
  let sequential : Eff (list DocNode) :=
    documents ← load_loop run tasks [];
    mret (_exclude_metadata documents) in
  (h,
   match num_workers with
   | Some n =>
       if (1 <=? n)%Z then
         (if (Z.of_nat (cpu_count host) <? n)%Z
          then log WARNING "Specified num_workers exceed number of CPUs in the system. Setting `num_workers` down to the maximum CPU count."
          else mret tt);;
         (([POOL (Z.to_nat n)], Ok tt) : Eff unit);;
         results ← lift (Pool.starmap (Z.to_nat n) oracle (λ task, (run task).2) tasks);
         documents ← lift (reduce_add results);
         mret (_exclude_metadata documents)
       else sequential
   | None => sequential
   end).
End DataReader.


(** ** Notions used to state the properties *)

(** One step of the result collection of the pool, over the results of the
    chunks. *)
Definition collect {B} (results : list (res (list B)))
    (mr : Pool.MapResult) (i : nat) : Pool.MapResult :=
  Pool._set mr i (default (Ok []) (results !! i)).

Section Derived.
Context (config : Config) (host : Host) (default_file_readers : loc).

(** The registry dispatch runs on, the per-file call and the task list of
    a load. *)
Definition registry_of (self : SimpleDirectoryReader) (h : heap)
  : Dict.t Extractor :=
  deref (build_file_readers default_file_readers self h).1
        (build_file_readers default_file_readers self h).2.

Definition run_task (self : SimpleDirectoryReader) (h : heap)
    (task : PurePath.t * option MetadataRecord) : Eff (list DocNode) :=
  load_file config host task.1 (Some (_metadata_genf self))
    (registry_of self h) (_encoding self) (Some (_fs self)) task.2.

Definition tasks_of (self : SimpleDirectoryReader)
  : list (PurePath.t * option MetadataRecord) :=
  zip_metadatas (_input_files self) (_metadatas self).
End Derived.

Section DerivedDiscovery.
Context (self : SimpleDirectoryReader).

(** The test of line 167, negated: the entry is taken. *)
Definition kept (rejected_files rejected_dirs : gset PurePath.t)
    (ref : PurePath.t) : bool :=
  let is_dir := isdir (_fs self) (PurePath.str ref) in
  let skip_hidden := _exclude_hidden self && _is_hidden ref in
  let skip_bad_exts :=
    match _required_exts self with
    | Some exts => negb (in_list (PurePath.suffix ref) exts)
    | None => false
    end in
  let ref_parent_dir :=
    if is_dir then PurePath.str ref
    else _parent (_fs self) (PurePath.str ref) in
  let skip_excluded :=
    bool_decide (ref ∈ rejected_files)
    || existsb (λ rejected_dir,
                  Py.startswith ref_parent_dir (PurePath.str rejected_dir))
               (elements rejected_dirs) in
  negb (is_dir || skip_hidden || skip_bad_exts || skip_excluded).

(** The candidate set [all_files] the loop of [_add_files] ends with. *)
Definition candidates (input_dir : PurePath.t) : gset PurePath.t :=
  let '(rejected_files, rejected_dirs) := rejected self input_dir in
  list_to_set
    (List.filter (kept rejected_files rejected_dirs)
       (PurePath.of_string <$> file_refs self input_dir)).

(** The result cap of lines 176-177. *)
Definition capped (files : list PurePath.t) : list PurePath.t :=
  match _num_files_limit self with
  | Some limit =>
      if (0 <? limit)%Z then take (Z.to_nat limit) files else files
  | None => files
  end.
End DerivedDiscovery.

(** ** Further notions and the file reader *)

(** The seven keys the default generator writes. *)
Definition generated_keys (keys : GlobalMetadata) : list string :=
  [RAG_DOC_PATH keys; RAG_DOC_FILE_NAME keys; RAG_DOC_FILE_TYPE keys;
   RAG_DOC_FILE_SIZE keys; RAG_DOC_CREATION_DATE keys;
   RAG_DOC_LAST_MODIFIED_DATE keys; RAG_DOC_LAST_ACCESSED_DATE keys].

(** The six keys [_exclude_metadata] appends. *)
Definition file_keys : list string :=
  ["file_name"; "file_type"; "file_size"; "creation_date";
   "last_modified_date"; "last_accessed_date"].

Definition with_num_files_limit (self : SimpleDirectoryReader)
    (limit : option Z) : SimpleDirectoryReader :=
  {| _fs := _fs self; _encoding := _encoding self; _exclude := _exclude self;
     _recursive := _recursive self; _exclude_hidden := _exclude_hidden self;
     _required_exts := _required_exts self;
     _num_files_limit := limit;
     _metadatas := _metadatas self; _input_files := _input_files self;
     _file_extractor := _file_extractor self;
     _metadata_genf := _metadata_genf self |}.

(** The glob an exclude pattern is expanded as (lines 133-136). *)
Definition excluded_glob (self : SimpleDirectoryReader)
    (input_dir : PurePath.t) (excluded_pattern : string) : PurePath.t :=
  if _recursive self
  then PurePath.truediv
         (PurePath.truediv input_dir (PurePath.of_string "**"))
         (PurePath.of_string excluded_pattern)
  else PurePath.truediv input_dir (PurePath.of_string excluded_pattern).

(** Python truthiness of the two constructor arguments. *)
Definition given_dir (a : Args.t) : bool :=
  match Args.input_dir a with
  | Some d => negb (String.eqb d EmptyString)
  | None => false
  end.

Definition given_files (a : Args.t) : bool :=
  match Args.input_files a with Some (_ :: _) => true | _ => false end.

(** Where the constructor finds a listed path: as given, or under the data
    root. *)
Definition resolved (config : Config) (fs : AbstractFileSystem)
    (path : string) : option string :=
  if isfile fs path then Some path
  else
    let path := Py.ospath_join (data_path config) path in
    if isfile fs path then Some path else None.

(** A prefix test against a string of characters that [lower] leaves alone
    and produces from no other character. *)
Definition caseless (p : string) : Prop :=
  ∀ c, In c (list_ascii_of_string p) → ∀ d, Py.lower_char d = c ↔ d = c.

(** The reader object the file reader builds for a list of files that are
    all found. *)
Definition listed_reader (config : Config) (host : Host)
    (keys : GlobalMetadata) (h : heap) (paths : list string)
  : SimpleDirectoryReader :=
  {| _fs := get_default_fs host; _encoding := "utf-8"; _exclude := None;
     _recursive := false; _exclude_hidden := true; _required_exts := None;
     _num_files_limit := None; _metadatas := None;
     _input_files :=
       omap (λ p, PurePath.of_string <$> resolved config (get_default_fs host) p)
            paths;
     _file_extractor := fresh (dom h);
     _metadata_genf :=
       _DefaultFileMetadataFunc host keys (Some (get_default_fs host)) |}.

Module FileReader.

(** What [_lazyllm_get_file_list] hands back: one path, or a list. *)
Inductive file_list :=
  | OnePath (s : string)
  | Paths (l : list string).

(** What the call returns: the empty list, or the joined text. *)
Inductive result :=
  | NoFiles
  | Text (s : string).

Definition newline : string := String "010"%char EmptyString.

(** [[file_list]] for a single string, the list itself otherwise. *)
Definition listed (fl : file_list) : list string :=
  match fl with
  | OnePath s => [s]
  | Paths l => l
  end.

(** [SimpleDirectoryReader(input_files=file_list)] *)
Definition reader_args (file_list : list string) : Args.t :=
  {| Args.input_dir := None; Args.input_files := Some file_list;
     Args.exclude := None; Args.exclude_hidden := true;
     Args.recursive := false; Args.encoding := "utf-8";
     Args.filename_as_id := false; Args.required_exts := None;
     Args.file_extractor := None; Args.fs := None;
     Args.metadata_genf := None; Args.num_files_limit := None;
     Args.return_trace := false; Args.metadatas := None |}.

Section FileReader.
Context (config : Config) (host : Host) (keys : GlobalMetadata)
        (default_file_readers : loc).

(** [_lazyllm_get_file_list] of the formatter module and [DocNode.get_text]
    are not part of this module. *)
Context {Input : Type} (_lazyllm_get_file_list : Input → file_list)
        (get_text : DocNode → string).

Definition __call__ (input_files : Input) (h : heap) : heap * Eff result :=
  let file_list := listed (_lazyllm_get_file_list input_files) in
  if length file_list =? 0 then (h, mret NoFiles)
  else
    match __init__ config host keys (reader_args file_list) h with
    | (h, (evs, Raise e)) => (h, (evs, Raise e))
    | (h, (evs, Ok reader)) =>
        let '(h, (evs', nodes)) :=
          _load_data config host default_file_readers reader false None None
            [] h in
        (h, (evs ++ evs',
             match nodes with
             | Ok nodes => Ok (Text (Py.join newline (get_text <$> nodes)))
             | Raise e => Raise e
             end))
    end.
End FileReader.
End FileReader.

(** What line 167 lets through, said directly: no directory, not hidden
    when hidden files are excluded, an allowed suffix when a list of suffixes
    is required, no excluded file, and no parent directory whose name starts
    with the name of an excluded directory. *)
Definition passes (self : SimpleDirectoryReader)
    (rejected_files rejected_dirs : gset PurePath.t) (p : PurePath.t) : Prop :=
  isdir (_fs self) (PurePath.str p) = false
  ∧ (_exclude_hidden self = true → _is_hidden p = false)
  ∧ (∀ exts, _required_exts self = Some exts →
       PurePath.suffix p ∈ exts)
  ∧ (p ∉ rejected_files)
  ∧ ∀ d, d ∈ rejected_dirs →
      Py.startswith (_parent (_fs self) (PurePath.str p)) (PurePath.str d)
      = false.

(** *** Node objects

    The loop of lines 228-230 assigns to the node objects the reader
    returned. Here the returned list holds references into a store of
    nodes, so that one object may occur in it more than once. *)
Definition index_uid (input_file : PurePath.t) (i : nat) : string :=
  PurePath.str input_file +:+ "_index_" +:+ pretty i.

Fixpoint number_from (input_file : PurePath.t) (i : nat) (docs : list nat)
    (store : gmap nat DocNode) : gmap nat DocNode :=
  match docs with
  | [] => store
  | doc :: docs =>
      number_from input_file (S i) docs
        (alter (λ d, set_uid d (index_uid input_file i)) doc store)
  end.

(** [for i, doc in enumerate(docs): doc._uid = f"{input_file!s}_index_{i}"] *)
Definition number_nodes (input_file : PurePath.t) (docs : list nat)
    (store : gmap nat DocNode) : gmap nat DocNode :=
  number_from input_file 0 docs store.

(** ** A concrete host for running the model

    An in-memory filesystem, the [*]/[?] fragment of [fnmatch], an ASCII
    codec and a few readers: enough to evaluate the definitions above on
    explicit inputs. *)

Module Fixture.

Fixpoint glob_match (pat : string) : string → bool :=
  match pat with
  | EmptyString => λ s, match s with EmptyString => true | _ => false end
  | String c pat' =>
      if Ascii.eqb c "*"%char then
        fix star (s : string) : bool :=
          glob_match pat' s
          || match s with EmptyString => false | String _ s' => star s' end
      else if Ascii.eqb c "?"%char then
        λ s, match s with String _ s' => glob_match pat' s' | _ => false end
      else
        λ s, match s with
             | String d s' => Ascii.eqb c d && glob_match pat' s'
             | _ => false
             end
  end.

Definition fnmatch_glob (name pat : string) : bool := glob_match pat name.

(** Segment-wise globbing of the filesystem: [**] spans any number of
    directories. *)
Fixpoint seg_match (pats : list string) : list string → bool :=
  match pats with
  | [] => λ segs, match segs with [] => true | _ => false end
  | p :: pats' =>
      if String.eqb p "**" then
        fix star (segs : list string) : bool :=
          seg_match pats' segs
          || match segs with [] => false | _ :: segs' => star segs' end
      else
        λ segs, match segs with
                | s :: segs' => glob_match p s && seg_match pats' segs'
                | [] => false
                end
  end.

Definition decode_ascii (encoding : string) (bs : list Byte.byte)
  : option string :=
  if forallb (λ b, (Byte.to_N b <? 128)%N) bs
  then Some (string_of_list_byte bs) else None.

Definition lookup_path {V} (p : string) (l : list (string * V)) : option V :=
  snd <$> List.find (λ e, String.eqb p e.1) l.

Definition memfs (files : list (string * list Byte.byte))
    (dirs : list string) : AbstractFileSystem :=
  {| isfile := λ p, bool_decide (is_Some (lookup_path p files));
     isdir := λ p, existsb (String.eqb p) dirs;
     glob := λ pat,
       List.filter (λ e, seg_match (Py.split "/"%char pat) (Py.split "/"%char e))
                   (dirs ++ files.*1);
     open := λ p,
       match lookup_path p files with
       | Some b => Ok b
       | None => Raise (OSError ("No such file: " +:+ p))
       end;
     _parent := λ p, Py.join "/" (removelast (Py.split "/"%char p));
     stat := λ p,
       match lookup_path p files with
       | Some b => {[ "name" := VStr p; "size" := VInt (Z.of_nat (length b)) ]}
       | None => ∅
       end;
     is_default_fs := true |}.

Definition bytes (s : string) : list Byte.byte := list_byte_of_string s.

(** A reader that yields one node carrying the path and its own
    metadata, and one that fails. *)
Definition node (s : string) (md : option MetadataRecord) : DocNode :=
  {| text := s; _global_metadata := md; _uid := None;
     _excluded_embed_metadata_keys := []; _excluded_llm_metadata_keys := [] |}.

Definition label_reader (label : string) (md : option MetadataRecord)
  : Reader :=
  λ path _, Ok (NodeList [node (label +:+ ":" +:+ PurePath.str path) md]).

Definition failing_reader : Reader :=
  λ path _, Raise (ReaderError ("cannot parse " +:+ PurePath.str path)).

Definition readers : Readers :=
  {| PDFReader := λ _, label_reader "pdf" None;
     DocxReader := λ _, label_reader "docx" None;
     HWPReader := λ _, label_reader "hwp" None;
     PPTXReader := λ _, label_reader "pptx" None;
     ImageReader := λ _, label_reader "image" None;
     IPYNBReader := λ _, label_reader "ipynb" None;
     EpubReader := λ _, label_reader "epub" None;
     MarkdownReader := λ _, label_reader "md" None;
     MboxReader := λ _, label_reader "mbox" None;
     PandasCSVReader := λ _, label_reader "csv" None;
     PandasExcelReader := λ _, label_reader "excel" None;
     VideoAudioReader := λ _, label_reader "av" None |}.

Definition keys : GlobalMetadata :=
  {| RAG_DOC_PATH := "lazyllm_doc_path"; RAG_DOC_FILE_NAME := "file_name";
     RAG_DOC_FILE_TYPE := "file_type"; RAG_DOC_FILE_SIZE := "file_size";
     RAG_DOC_CREATION_DATE := "creation_date";
     RAG_DOC_LAST_MODIFIED_DATE := "last_modified_date";
     RAG_DOC_LAST_ACCESSED_DATE := "last_accessed_date" |}.

Definition host (fs : AbstractFileSystem) (cpus : nat) : Host :=
  {| cpu_count := cpus; cwd := "/work"; fnmatch := fnmatch_glob;
     decode := decode_ascii; get_default_fs := fs;
     guess_type := λ _, None; strftime := λ _ _, None |}.

Definition config (fallback : bool) : Config :=
  {| rag_filename_as_id := false; use_fallback_reader := fallback;
     data_path := "/data" |}.

(** A small tree. *)
Definition tree : AbstractFileSystem :=
  memfs [ ("/docs/a.md", bytes "# a"); ("/docs/b.txt", bytes "hello");
          ("/docs/c.MD", bytes "# c"); ("/docs/.git/config", bytes "x");
          ("/docs/sub/d.md", bytes "# d");
          ("/docs/bin.dat", [Byte.xff; Byte.xfe]) ]
        [ "/docs"; "/docs/.git"; "/docs/sub" ].

(** The store right after the class statement: the default table lives
    at reference [1]. *)
Definition class_loc : loc := 1%positive.
Definition heap0 : heap :=
  {[ class_loc := default_file_readers_table readers ]}.

Definition H : Host := host tree 4.

(** The caller's dictionary lives at reference [2]. *)
Definition caller_loc : loc := 2%positive.
Definition heap_with (caller : Dict.t Extractor) : heap :=
  <[caller_loc := caller]> heap0.

Definition args_files (files : list string)
    (metas : option (list (option MetadataRecord))) : Args.t :=
  {| Args.input_dir := None; Args.input_files := Some files;
     Args.exclude := None; Args.exclude_hidden := true;
     Args.recursive := false; Args.encoding := "utf-8";
     Args.filename_as_id := false; Args.required_exts := None;
     Args.file_extractor := Some caller_loc; Args.fs := None;
     Args.metadata_genf := Some (λ _, {[ "file_size" := VInt 10 ]});
     Args.num_files_limit := None; Args.return_trace := false;
     Args.metadatas := metas |}.

Definition args_dir (dir : string) (limit : option Z) : Args.t :=
  {| Args.input_dir := Some dir; Args.input_files := None;
     Args.exclude := None; Args.exclude_hidden := true;
     Args.recursive := true; Args.encoding := "utf-8";
     Args.filename_as_id := false; Args.required_exts := None;
     Args.file_extractor := None; Args.fs := None;
     Args.metadata_genf := Some (λ _, {[ "file_size" := VInt 10 ]});
     Args.num_files_limit := limit; Args.return_trace := false;
     Args.metadatas := None |}.

(** The object a constructor call returns; a call that raises yields the
    bare record below, which no example relies on. *)
Definition blank : SimpleDirectoryReader :=
  {| _fs := tree; _encoding := "utf-8"; _exclude := None;
     _recursive := false; _exclude_hidden := true; _required_exts := None;
     _num_files_limit := None; _metadatas := None; _input_files := [];
     _file_extractor := caller_loc; _metadata_genf := λ _, ∅ |}.

Definition constructed (c : Config) (a : Args.t) (h : heap)
  : SimpleDirectoryReader :=
  match (__init__ c H keys a h).2.2 with Ok self => self | Raise _ => blank end.

Definition texts (r : option (list DocNode)) : option (list string) :=
  (λ docs : list DocNode, text <$> docs) <$> r.

(** A caller registry overriding ["*.md"], and one whose reader fails. *)
Definition mine : Dict.t Extractor :=
  [("*.md", ReaderInstance (label_reader "mine" (Some {[ "lang" := VStr "en" ]})))].
Definition broken : Dict.t Extractor :=
  [("*.md", ReaderInstance failing_reader)].

Definition batch : list string :=
  ["/docs/a.md"; "/docs/bin.dat"; "/docs/b.txt"].

Definition on : Config := config true.
Definition off : Config := config false.

Definition a_md : PurePath.t := ["/"; "docs"; "a.md"].
Definition b_txt : PurePath.t := ["/"; "docs"; "b.txt"].
Definition bin_dat : PurePath.t := ["/"; "docs"; "bin.dat"].
Definition owner : MetadataRecord := {[ "owner" := VStr "me" ]}.
Definition size10 : string → MetadataRecord :=
  λ _, {[ "file_size" := VInt 10 ]}.

Definition heap_mine : heap := heap_with mine.
Definition heap_broken : heap := heap_with broken.

(** Reader objects, each built by the constructor. *)
Definition docs_reader : SimpleDirectoryReader :=
  constructed on (args_dir "/docs" None) heap0.
Definition capped_reader : SimpleDirectoryReader :=
  constructed on (args_dir "/docs" (Some 2%Z)) heap0.
Definition batch_reader : SimpleDirectoryReader :=
  constructed on (args_files batch None) heap_mine.
Definition broken_reader : SimpleDirectoryReader :=
  constructed on (args_files ["/docs/a.md"; "/docs/b.txt"] None) heap_broken.
Definition short_reader : SimpleDirectoryReader :=
  constructed on (args_files ["/docs/a.md"; "/docs/b.txt"] (Some [Some owner]))
              heap_mine.
End Fixture.

(** ** Further inputs

    A tree with a directory to exclude, a sibling directory whose name
    continues that of the excluded one, and a file under the data root;
    readers and reader objects over it. *)

Module Cases.
Import Fixture.

Definition wide : AbstractFileSystem :=
  memfs [ ("/docs/a.md", bytes "# a"); ("/docs/sub/d.md", bytes "# d");
          ("/docs/subway/e.md", bytes "# e"); ("/docs/tmp.log", bytes "t");
          ("/data/notes/n.md", bytes "# n") ]
        [ "/docs"; "/docs/sub"; "/docs/subway"; "/data"; "/data/notes" ].

Definition args_wide (files : list string) : Args.t :=
  {| Args.input_dir := None; Args.input_files := Some files;
     Args.exclude := None; Args.exclude_hidden := true;
     Args.recursive := false; Args.encoding := "utf-8";
     Args.filename_as_id := false; Args.required_exts := None;
     Args.file_extractor := None; Args.fs := Some wide;
     Args.metadata_genf := None; Args.num_files_limit := None;
     Args.return_trace := false; Args.metadatas := None |}.

Definition args_excluding (dir : string) (patterns : list string) : Args.t :=
  {| Args.input_dir := Some dir; Args.input_files := None;
     Args.exclude := Some patterns; Args.exclude_hidden := true;
     Args.recursive := true; Args.encoding := "utf-8";
     Args.filename_as_id := false; Args.required_exts := None;
     Args.file_extractor := None; Args.fs := Some wide;
     Args.metadata_genf := None; Args.num_files_limit := None;
     Args.return_trace := false; Args.metadatas := None |}.

Definition excluding_reader : SimpleDirectoryReader :=
  constructed on (args_excluding "/docs" ["sub"; "*.log"]) heap0.

Definition zero_cap_reader : SimpleDirectoryReader :=
  constructed on (args_dir "/docs" (Some 0%Z)) heap0.

Definition docs_dir : PurePath.t := ["/"; "docs"].
Definition c_MD : PurePath.t := ["/"; "docs"; "c.MD"].
Definition c_md : PurePath.t := ["/"; "docs"; "c.md"].
Definition d_md : PurePath.t := ["/"; "docs"; "sub"; "d.md"].
Definition e_md : PurePath.t := ["/"; "docs"; "subway"; "e.md"].

(** What a sequential load of the small tree returns, and its first
    node. *)
Definition loaded : list DocNode :=
  default []
    (value (_load_data on H class_loc docs_reader false None None [] heap0).2).
Definition first_loaded : DocNode :=
  default (node EmptyString None) (head loaded).

(** Numbering switched on, and a reader that yields two nodes. *)
Definition numbered : Config :=
  {| rag_filename_as_id := true; use_fallback_reader := true;
     data_path := "/data" |}.
Definition pages : list DocNode := [node "p1" None; node "p2" None].
Definition pages_reader : Reader := λ _ _, Ok (NodeList pages).
Definition paged_entry : string * Extractor :=
  ("*.md", ReaderInstance pages_reader).
Definition paged : Dict.t Extractor := [paged_entry].

Definition mine_entry : string * Extractor :=
  ("*.md",
   ReaderInstance (label_reader "mine" (Some {[ "lang" := VStr "en" ]}))).
Definition mine_node : DocNode :=
  node "mine:/docs/a.md" (Some {[ "lang" := VStr "en" ]}).
Definition markdown_entry : string * Extractor :=
  ("*.md", ReaderType (MarkdownReader readers)).
Definition markdown_node : DocNode := node "md:/docs/a.md" None.

(** A batch whose second file is read by a reader that fails. *)
Definition late_failure_reader : SimpleDirectoryReader :=
  constructed on (args_files ["/docs/b.txt"; "/docs/a.md"; "/docs/bin.dat"] None)
              heap_broken.

(** Node objects: the object at reference [1] occurs twice. *)
Definition objects : gmap nat DocNode :=
  {[ 1 := node "p1" None; 2 := node "p2" None ]}.

(** A reader object with an empty file list, which no constructor call
    returns. *)
Definition empty_reader : SimpleDirectoryReader :=
  with_input_files blank [].
End Cases.

(** ** The definitions at work *)

Example path_examples :
  PurePath.of_string "/data/.cache/a.MD" = ["/"; "data"; ".cache"; "a.MD"]
  /\ PurePath.str (PurePath.of_string "docs//x/./y.txt") = "docs/x/y.txt"
  /\ PurePath.suffix (PurePath.of_string "a/b.tar.gz") = ".gz"
  /\ PurePath.suffix (PurePath.of_string "a/.bashrc") = EmptyString
  /\ PurePath.compare ["a"; "b"] ["a.b"; "c"] = Lt
  /\ Py.lower "Dir/ReadMe.MD" = "dir/readme.md"
  /\ Py.ospath_join "/home/u" "*.md" = "/home/u/*.md".
Proof. repeat split; reflexivity. Qed.

Example starmap_example :
  Pool.starmap 2 [5; 1; 0; 3] (λ n : nat, Ok (n * n)) (seq 0 11)
  = Ok [0; 1; 4; 9; 16; 25; 36; 49; 64; 81; 100].
Proof. reflexivity. Qed.

Example metadata_precedence :
  merge_metadata {[ "file_size" := VInt 10 ]}
    (Some (<[ "lang" := VStr "en" ]> {[ "file_size" := VInt 20 ]}))
    {[ "file_size" := VInt 30 ]}
  = <[ "lang" := VStr "en" ]> {[ "file_size" := VInt 30 ]}.
Proof. vm_compute. reflexivity. Qed.

Example matched_file_gets_the_merge :
  (λ docs : list DocNode, _global_metadata <$> docs)
    <$> value (load_file Fixture.on Fixture.H Fixture.a_md
                 (Some Fixture.size10) Fixture.mine "utf-8" None
                 (Some {[ "file_size" := VInt 30 ]}))
  = Some [Some (<[ "lang" := VStr "en" ]> {[ "file_size" := VInt 30 ]})].
Proof. vm_compute. reflexivity. Qed.

(** ** Facts about the effect monad *)

Lemma value_bind {A B} (m : Eff A) (f : A → Eff B) :
  value (m ≫= f) = value m ≫= (λ a, value (f a)).
Proof.
  destruct m as [l [a|e]]; unfold value; simpl; [|done].
  by destruct (f a) as [l' r].
Qed.

Lemma value_ret {A} (a : A) : value (mret a : Eff A) = Some a.
Proof. done. Qed.

Lemma value_lift {A} (r : res A) : value (lift r) = to_option r.
Proof. by destruct r. Qed.

Lemma fold_left_pointwise {X Y} (f g : X → Y → X) (l : list Y) (a : X) :
  (∀ a b, f a b = g a b) → fold_left f l a = fold_left g l a.
Proof.
  intros Hfg. revert a. induction l as [|b l IH]; intros a; simpl; [done|].
  by rewrite Hfg, IH.
Qed.

(** ** Facts about the worker pool *)

Section PoolFacts.
Context {A B : Type}.
Implicit Types (func : A → res B) (results : list (res (list B))).

Lemma mapstar_to_option func chunk :
  to_option (Pool.mapstar func chunk) = mapM (λ x, to_option (func x)) chunk.
Proof.
  induction chunk as [|x chunk IH]; simpl; [done|].
  destruct (func x) as [y|e]; simpl; [|done].
  rewrite <- IH. by destruct (Pool.mapstar func chunk).
Qed.

Lemma chunksize_pos len processes : 0 < len → 0 < Pool.chunksize len processes.
Proof.
  intros Hlen. unfold Pool.chunksize.
  destruct (Nat.eqb_spec len 0) as [-> | _]; [lia|].
  destruct (Nat.eqb_spec (len `mod` (processes * 4)) 0) as [Hm|_]; [|lia].
  destruct (decide (processes * 4 = 0)) as [Hz|Hz].
  - rewrite Hz in Hm. simpl in Hm. lia.
  - apply Nat.div_str_pos. split; [lia|].
    apply Nat.Div0.div_exact in Hm.
    destruct (len / (processes * 4)); lia.
Qed.

Lemma get_tasks_concat fuel size (l : list A) :
  0 < size → length l ≤ fuel → concat (Pool.get_tasks fuel size l) = l.
Proof.
  intros Hsize. revert l.
  induction fuel as [|fuel IH]; intros l Hlen; cbn [Pool.get_tasks].
  - by destruct l; simpl in *; [|lia].
  - destruct (take size l) as [|x xs] eqn:Htake.
    + apply take_nil_inv in Htake as [-> | ->]; [lia|done].
    + rewrite concat_cons, IH.
      * rewrite <- Htake. apply take_drop.
      * rewrite length_drop.
        assert (length (take size l) = S (length xs)) as Hl by by rewrite Htake.
        rewrite length_take in Hl. lia.
Qed.

Lemma completion_order_perm oracle pending :
  Pool.completion_order oracle pending (length pending) ≡ₚ pending.
Proof.
  remember (length pending) as n eqn:Hn.
  revert oracle pending Hn.
  induction n as [|n IH]; intros oracle pending Hn; simpl.
  - by destruct pending.
  - assert (hd 0 oracle `mod` length pending < length pending) as Hk
      by (apply Nat.mod_upper_bound; lia).
    destruct (lookup_lt_is_Some_2 _ _ Hk) as [c Hc]. rewrite Hc.
    etrans; [|symmetry; apply (delete_Permutation pending _ c Hc)].
    constructor. apply IH. rewrite length_delete by eauto. lia.
Qed.

Lemma collect_failed results order (mr : @Pool.MapResult B) :
  Pool._success mr = false →
  Pool._success (fold_left (collect results) order mr) = false.
Proof.
  revert mr. induction order as [|i order IH]; intros mr Hmr; simpl; [done|].
  apply IH. unfold collect, Pool._set.
  destruct (default _ _); by rewrite Hmr.
Qed.

Lemma collect_some_failure results order (mr : @Pool.MapResult B) i e :
  i ∈ order → results !! i = Some (Raise e) →
  Pool._success (fold_left (collect results) order mr) = false.
Proof.
  revert mr. induction order as [|j order IH]; intros mr Hin Hi; simpl.
  - by apply elem_of_nil in Hin.
  - destruct (decide (j = i)) as [-> | Hne].
    + apply collect_failed. unfold collect. rewrite Hi. simpl.
      by destruct (Pool._success mr) eqn:E.
    + apply IH; [|done]. apply elem_of_cons in Hin as [-> | ]; done.
Qed.

Lemma collect_all_ok results order (mr : @Pool.MapResult B) :
  (∀ i, i ∈ order → ∃ ys, results !! i = Some (Ok ys)) →
  Pool._success mr = true →
  let mr' := fold_left (collect results) order mr in
  Pool._success mr' = true
  ∧ length (Pool._value mr') = length (Pool._value mr)
  ∧ ∀ j, Pool._value mr' !! j =
         if decide (j ∈ order ∧ j < length (Pool._value mr))
         then to_option <$> results !! j
         else Pool._value mr !! j.
Proof.
  revert mr. induction order as [|i order IH]; intros mr Hok Hmr;
    cbn [fold_left]; cbv zeta.
  - split; [done|]. split; [done|]. intros j.
    destruct (decide _) as [[H _]|]; [|done]. by apply elem_of_nil in H.
  - destruct (Hok i) as [ys Hys]; [left|].
    assert (collect results mr i =
            {| Pool._success := true;
               Pool._value := <[i := Some ys]> (Pool._value mr);
               Pool._error := Pool._error mr |}) as Hstep.
    { unfold collect. rewrite Hys. simpl. by rewrite Hmr. }
    destruct (IH (collect results mr i)) as (Hs & Hl & Hv).
    { intros k Hk. apply Hok. by right. }
    { by rewrite Hstep. }
    rewrite Hstep in Hs, Hl, Hv |- *. simpl in Hl, Hv. rewrite length_insert in Hl, Hv.
    split; [done|]. split; [done|]. intros j. rewrite Hv.
    destruct (decide (j ∈ order ∧ j < length (Pool._value mr))) as [[Hj Hlt]|Hn].
    + rewrite decide_True; [done|]. split; [by right|done].
    + destruct (decide (i = j)) as [-> | Hij].
      * destruct (decide (j < length (Pool._value mr))) as [Hlt|Hge].
        -- rewrite list_lookup_insert_eq by done.
           rewrite decide_True by (split; [left|done]). by rewrite Hys.
        -- rewrite list_insert_ge by lia. rewrite decide_False; [done|]. tauto.
      * rewrite list_lookup_insert_ne by done.
        rewrite decide_False; [done|].
        intros [Hj Hlt]. apply elem_of_cons in Hj as [-> | Hj]; tauto.
Qed.

Lemma collect_value results order :
  order ≡ₚ seq 0 (length results) →
  to_option (Pool.get (fold_left (collect results) order
                         (Pool.MapResult_new (length results))))
  = @concat B <$> mapM to_option results.
Proof.
  intros Hperm.
  assert (∀ i, i ∈ order ↔ i < length results) as Hin.
  { intros i. rewrite Hperm, elem_of_seq. lia. }
  destruct (mapM to_option results) as [yss|] eqn:HM; simpl.
  - apply mapM_Some in HM.
    assert (∀ i, i ∈ order → ∃ ys, results !! i = Some (Ok ys)) as Hok.
    { intros i Hi. apply Hin in Hi.
      destruct (lookup_lt_is_Some_2 _ _ Hi) as [r Hr].
      destruct (Forall2_lookup_l _ _ _ _ _ HM Hr) as (ys & _ & Hy).
      destruct r; simplify_eq/=. eauto. }
    destruct (collect_all_ok results order (Pool.MapResult_new (length results)) Hok eq_refl)
      as (Hs & Hl & Hv).
    unfold Pool.get. rewrite Hs. simpl. f_equal. f_equal.
    simpl in Hl, Hv. rewrite length_replicate in Hl, Hv.
    assert (Pool._value (fold_left (collect results) order
              (Pool.MapResult_new (length results))) = Some <$> yss) as ->.
    { apply list_eq. intros j. rewrite Hv, list_lookup_fmap.
      destruct (decide (j < length results)) as [Hj|Hj].
      - rewrite decide_True by (split; [by apply Hin|done]).
        destruct (lookup_lt_is_Some_2 _ _ Hj) as [r Hr]. rewrite Hr.
        destruct (Forall2_lookup_l _ _ _ _ _ HM Hr) as (ys & Hy & Hry).
        rewrite Hy. simpl. by rewrite Hry.
      - rewrite decide_False by tauto.
        rewrite (proj1 (lookup_replicate_None _ _ _)) by lia.
        rewrite (lookup_ge_None_2 yss); [done|].
        rewrite <- (Forall2_length _ _ _ HM). lia. }
    rewrite <- list_fmap_compose. by rewrite list_fmap_id.
  - apply mapM_None in HM. apply Exists_exists in HM as (r & Hr & Hnone).
    apply list_elem_of_lookup in Hr as [i Hi].
    destruct r as [|e]; [done|].
    unfold Pool.get.
    rewrite (collect_some_failure results order _ i e); [done| |done].
    apply Hin. by eapply lookup_lt_Some.
Qed.

Lemma mapM_option_app {X Y} (f : X → option Y) (l1 l2 : list X) :
  mapM f (l1 ++ l2) = k1 ← mapM f l1; k2 ← mapM f l2; Some (k1 ++ k2).
Proof.
  induction l1 as [|x l1 IH].
  - simpl. by destruct (mapM f l2).
  - change (mapM f ((x :: l1) ++ l2))
      with (y ← f x; k ← mapM f (l1 ++ l2); Some (y :: k)).
    change (mapM f (x :: l1)) with (y ← f x; k ← mapM f l1; Some (y :: k)).
    rewrite IH. destruct (f x); simpl; [|done].
    destruct (mapM f l1); simpl; [|done]. by destruct (mapM f l2).
Qed.

Lemma mapM_concat_chunks func (chunks : list (list A)) :
  @concat B <$> mapM to_option (Pool.mapstar func <$> chunks)
  = mapM (λ x, to_option (func x)) (concat chunks).
Proof.
  induction chunks as [|c chunks IH]; [done|].
  rewrite fmap_cons, concat_cons, mapM_option_app, <- IH.
  change (mapM to_option (Pool.mapstar func c :: (Pool.mapstar func <$> chunks)))
    with (y ← to_option (Pool.mapstar func c);
          k ← mapM to_option (Pool.mapstar func <$> chunks); Some (y :: k)).
  rewrite mapstar_to_option.
  destruct (mapM (λ x, to_option (func x)) c); simpl; [|done].
  by destruct (mapM to_option (Pool.mapstar func <$> chunks)).
Qed.

(** Whatever the number of workers and the schedule, [starmap] returns
    what mapping in list order returns, and raises when some call
    raises. *)
Lemma starmap_value processes oracle func (iterable : list A) :
  to_option (Pool.starmap processes oracle func iterable)
  = mapM (λ x, to_option (func x)) iterable.
Proof.
  unfold Pool.starmap.
  set (size := Pool.chunksize (length iterable) processes).
  set (chunks := Pool.get_tasks (length iterable) size iterable).
  assert (concat chunks = iterable) as Hconcat.
  { destruct (decide (iterable = [])) as [-> | Hne]; [done|].
    apply get_tasks_concat; [|done].
    apply chunksize_pos. destruct iterable; [done|simpl; lia]. }
  rewrite <- Hconcat at 1. rewrite <- mapM_concat_chunks.
  set (results := Pool.mapstar func <$> chunks).
  assert (length results = length chunks) as Hlen by apply length_fmap.
  set (order := Pool.completion_order oracle (seq 0 (length chunks)) (length chunks)).
  trans (to_option (Pool.get (fold_left (collect results) order
                                (Pool.MapResult_new (length results))))).
  - rewrite Hlen. f_equal. f_equal. apply fold_left_pointwise. intros mr i.
    unfold collect. f_equal. unfold results. rewrite list_lookup_fmap.
    by destruct (chunks !! i).
  - apply collect_value. rewrite Hlen. unfold order.
    pose proof (completion_order_perm oracle (seq 0 (length chunks))) as H.
    by rewrite length_seq in H.
Qed.
End PoolFacts.

(** ** Facts about the loader *)

Lemma fold_left_app_concat {X} (l : list (list X)) (a : list X) :
  fold_left (λ x y, x ++ y) l a = a ++ concat l.
Proof.
  revert a. induction l as [|b l IH]; intros a; simpl.
  - by rewrite app_nil_r.
  - by rewrite IH, app_assoc.
Qed.

Lemma setitem_absent {V} (d : Dict.t V) k v :
  Dict.contains d k = false → Dict.setitem d k v = d ++ [(k, v)].
Proof.
  unfold Dict.contains, Dict.keys.
  induction d as [|[k' v'] d IH]; simpl; [done|].
  intros [Hk Hd]%orb_false_elim. rewrite Hk. f_equal. by apply IH.
Qed.

Lemma contains_app {V} (d1 d2 : Dict.t V) k :
  Dict.contains (d1 ++ d2) k = Dict.contains d1 k || Dict.contains d2 k.
Proof. unfold Dict.contains, Dict.keys. by rewrite fmap_app, existsb_app. Qed.

Lemma contains_true {V} (d : Dict.t V) k :
  Dict.contains d k = true ↔ k ∈ Dict.keys d.
Proof.
  unfold Dict.contains. rewrite existsb_exists. split.
  - intros (k' & Hin & ->%String.eqb_eq). by apply list_elem_of_In.
  - intros Hin. exists k. split; [by apply list_elem_of_In|apply String.eqb_refl].
Qed.

Section LoaderFacts.
Context (config : Config) (host : Host) (default_file_readers : loc).

Abbreviation load_data := (_load_data config host default_file_readers).
Abbreviation run_on := (run_task config host default_file_readers).


Lemma build_file_readers_frame self h l :
  l ≠ fresh (dom h) →
  (build_file_readers default_file_readers self h).1 !! l = h !! l.
Proof.
  intros Hl. unfold build_file_readers, alloc. cbn [fst].
  set (fr := fresh (dom h)) in *.
  generalize (deref (<[fr:=deref h (_file_extractor self)]> h) default_file_readers).
  assert (<[fr:=deref h (_file_extractor self)]> h !! l = h !! l) as Hbase
    by by rewrite lookup_insert_ne.
  revert Hbase. generalize (<[fr:=deref h (_file_extractor self)]> h).
  intros h1 Hh1 items. revert h1 Hh1.
  induction items as [|[key func] items IH]; intros h1 Hh1; simpl; [done|].
  apply IH. destruct (negb _); [|done]. by rewrite lookup_insert_ne.
Qed.

Lemma build_file_readers_loc self h :
  (build_file_readers default_file_readers self h).2 = fresh (dom h).
Proof. done. Qed.

Lemma fold_merge (fr : loc) items (h : heap) d :
  h !! fr = Some d → NoDup items.*1 →
  deref
    (fold_left
       (λ h '(key, func),
          if negb (Dict.contains (deref h fr) key)
          then <[fr := Dict.setitem (deref h fr) key func]> h else h)
       items h) fr
  = d ++ List.filter (λ e, negb (Dict.contains d e.1)) items.
Proof.
  revert h d. induction items as [|[key func] items IH]; intros h d Hd Hnd.
  - simpl. unfold deref. rewrite Hd. simpl. by rewrite app_nil_r.
  - apply NoDup_cons in Hnd as [Hkey Hnd]. cbn [fold_left List.filter fst].
    assert (deref h fr = d) as Hderef by (unfold deref; by rewrite Hd).
    rewrite Hderef. destruct (Dict.contains d key) eqn:Hc; cbn [negb].
    + by apply IH.
    + rewrite (IH _ (Dict.setitem d key func)); [|by rewrite lookup_insert_eq|done].
      rewrite setitem_absent by done. rewrite <- app_assoc. f_equal.
      cbn [app]. f_equal.
      apply List.filter_ext_in. intros [k v] Hin. cbn [fst]. f_equal.
      rewrite contains_app. unfold Dict.contains at 2. simpl.
      destruct (String.eqb_spec k key) as [-> | _]; [|by rewrite !orb_false_r].
      exfalso. apply Hkey. apply list_elem_of_fmap. exists (key, v).
      split; [done|]. by apply list_elem_of_In.
Qed.

Lemma registry_of_merged self h :
  is_Some (h !! default_file_readers) →
  Dict.wf (deref h default_file_readers) →
  registry_of default_file_readers self h
  = deref h (_file_extractor self)
    ++ List.filter
         (λ e, negb (Dict.contains (deref h (_file_extractor self)) e.1))
         (deref h default_file_readers).
Proof.
  intros Hdom Hwf. unfold registry_of, build_file_readers, alloc.
  cbn [fst snd]. set (fr := fresh (dom h)).
  assert (default_file_readers ≠ fr) as Hne.
  { intros ->. apply elem_of_dom in Hdom. by apply is_fresh in Hdom. }
  assert (deref (<[fr:=deref h (_file_extractor self)]> h) default_file_readers
          = deref h default_file_readers) as ->.
  { unfold deref. by rewrite lookup_insert_ne. }
  apply fold_merge; [by rewrite lookup_insert_eq|done].
Qed.

Lemma value_load_loop run tasks acc :
  value (load_loop run tasks acc)
  = (λ rs, acc ++ concat rs) <$> mapM (λ t, value (run t)) tasks.
Proof.
  revert acc. induction tasks as [|t tasks IH]; intros acc.
  - simpl. unfold value. simpl. by rewrite app_nil_r.
  - cbn [load_loop]. rewrite value_bind.
    change (mapM (λ t, value (run t)) (t :: tasks))
      with (y ← value (run t); k ← mapM (λ t, value (run t)) tasks; Some (y :: k)).
    destruct (value (run t)) as [docs|]; simpl; [|done].
    rewrite IH. destruct (mapM _ tasks); simpl; [|done].
    by rewrite app_assoc.
Qed.

Lemma load_data_heap self show nw fs oracle h :
  (load_data self show nw fs oracle h).1 = (build_file_readers default_file_readers self h).1.
Proof.
  unfold _load_data. by destruct (build_file_readers _ _ _).
Qed.

(** What a load returns, sequentially ... *)
Lemma sequential_value self show fs oracle h :
  value (load_data self show None fs oracle h).2
  = (λ rs, _exclude_metadata (concat rs))
      <$> mapM (λ t, value (run_on self h t)) (tasks_of self).
Proof.
  unfold _load_data, run_task, registry_of, tasks_of.
  destruct (build_file_readers _ _ _) as [h' fr]. cbn [fst snd].
  rewrite value_bind, value_load_loop.
  set (G := λ t : PurePath.t * option MetadataRecord,
         value (load_file config host t.1 (Some (_metadata_genf self)) (deref h' fr)
                  (_encoding self) (Some (_fs self)) t.2)).
  rewrite (mapM_ext _ G) by by intros [].
  by destruct (mapM _ _).
Qed.

Lemma sequential_value_nonpositive self show n fs oracle h :
  (n < 1)%Z →
  (load_data self show (Some n) fs oracle h)
  = (load_data self show None fs oracle h).
Proof.
  intros Hn. unfold _load_data.
  destruct (build_file_readers _ _ _) as [h' fr].
  by rewrite (proj2 (Z.leb_gt 1 n)) by lia.
Qed.

(** ... and through the pool, for a batch that is not empty. *)
Lemma parallel_value self show n fs oracle h :
  (1 ≤ n)%Z → tasks_of self ≠ [] →
  value (load_data self show (Some n) fs oracle h).2
  = (λ rs, _exclude_metadata (concat rs))
      <$> mapM (λ t, value (run_on self h t)) (tasks_of self).
Proof.
  intros Hn Hne. unfold _load_data, run_task, registry_of, tasks_of in *.
  destruct (build_file_readers _ _ _) as [h' fr]. cbn [fst snd].
  rewrite (proj2 (Z.leb_le 1 n)) by done.
  rewrite !value_bind.
  assert (∀ b : bool, value (if b then log WARNING
     "Specified num_workers exceed number of CPUs in the system. Setting `num_workers` down to the maximum CPU count."
     else mret ()) = Some ()) as -> by (by intros []).
  cbn [mbind option_bind].
  change (value ([POOL (Z.to_nat n)], Ok ())) with (Some ()).
  cbn [mbind option_bind]. rewrite value_lift, starmap_value.
  set (G := λ t : PurePath.t * option MetadataRecord,
         value (load_file config host t.1 (Some (_metadata_genf self)) (deref h' fr)
                  (_encoding self) (Some (_fs self)) t.2)).
  rewrite (mapM_ext _ G) by by intros [].
  set (tasks := zip_metadatas _ _) in *.
  destruct (mapM _ tasks) as [rs|] eqn:HM; [|done]. cbn [mbind option_bind fmap option_map].
  rewrite value_bind, value_lift.
  destruct rs as [|r rs].
  - apply length_mapM in HM. destruct tasks; [done|simpl in HM; lia].
  - cbn. by rewrite fold_left_app_concat.
Qed.
End LoaderFacts.

(** ** Facts about the order of paths *)

Lemma ascii_compare_eq (a b : ascii) : Ascii.compare a b = Eq ↔ a = b.
Proof.
  split; [apply Ascii.compare_eq_iff|]. intros ->.
  unfold Ascii.compare. apply N.compare_refl.
Qed.

Lemma ascii_compare_trans (a b c : ascii) (r : comparison) :
  Ascii.compare a b = r → Ascii.compare b c = r → Ascii.compare a c = r.
Proof.
  unfold Ascii.compare. destruct r; intros H1 H2.
  - apply N.compare_eq_iff in H1, H2. apply N.compare_eq_iff. congruence.
  - apply N.compare_lt_iff in H1, H2. apply N.compare_lt_iff.
    by eapply N.lt_trans.
  - apply N.compare_gt_iff in H1, H2. apply N.compare_gt_iff.
    by eapply N.lt_trans.
Qed.

Lemma string_compare_as_list (s t : string) :
  String.compare s t
  = list_compare Ascii.compare (list_ascii_of_string s) (list_ascii_of_string t).
Proof.
  revert t. induction s as [|a s IH]; intros [|b t]; simpl; try done.
  rewrite IH. by destruct (Ascii.compare a b).
Qed.

Lemma string_compare_eq (s t : string) : String.compare s t = Eq ↔ s = t.
Proof.
  rewrite string_compare_as_list, (list_compare_refl _ ascii_compare_eq).
  split; [|by intros ->]. intros H.
  by rewrite <- (string_of_list_ascii_of_string s), H, string_of_list_ascii_of_string.
Qed.

Lemma string_compare_opp (s t : string) :
  String.compare t s = CompOpp (String.compare s t).
Proof. apply String.compare_antisym. Qed.

Lemma string_compare_trans (s t u : string) (r : comparison) :
  String.compare s t = r → String.compare t u = r → String.compare s u = r.
Proof.
  rewrite !string_compare_as_list.
  apply (list_compare_trans _ ascii_compare_eq).
  - apply ascii_compare_trans.
  - intros x y. apply Ascii.compare_antisym.
Qed.

Lemma path_compare_eq (p q : PurePath.t) : PurePath.compare p q = Eq ↔ p = q.
Proof. apply (list_compare_refl _ string_compare_eq). Qed.

Lemma path_compare_opp (p q : PurePath.t) :
  PurePath.compare q p = CompOpp (PurePath.compare p q).
Proof.
  apply (list_compare_antisym _ string_compare_eq), string_compare_opp.
Qed.

Lemma path_compare_trans (p q r : PurePath.t) (c : comparison) :
  PurePath.compare p q = c → PurePath.compare q r = c → PurePath.compare p r = c.
Proof.
  apply (list_compare_trans _ string_compare_eq).
  - apply string_compare_trans.
  - apply string_compare_opp.
Qed.

#[global] Instance path_le_total : Total PurePath.le.
Proof.
  intros p q. unfold PurePath.le, PurePath.leb.
  rewrite (path_compare_opp p q). destruct (PurePath.compare p q); auto.
Qed.

#[global] Instance path_le_trans : Transitive PurePath.le.
Proof.
  intros p q r. unfold PurePath.le, PurePath.leb.
  destruct (PurePath.compare p q) eqn:Hpq; [|intros _|done].
  - apply path_compare_eq in Hpq as ->. done.
  - destruct (PurePath.compare q r) eqn:Hqr; [|intros _|done].
    + apply path_compare_eq in Hqr as <-. by rewrite Hpq.
    + by rewrite (path_compare_trans p q r Lt).
Qed.

#[global] Instance path_le_antisymm : AntiSymm (=) PurePath.le.
Proof.
  intros p q. unfold PurePath.le, PurePath.leb.
  rewrite (path_compare_opp p q).
  destruct (PurePath.compare p q) eqn:Hpq; simpl; try done.
  intros _ _. by apply path_compare_eq.
Qed.

(** ** Facts about discovery *)

Lemma bind_result {A B} (m : Eff A) (f : A → Eff B) a :
  m.2 = Ok a → (m ≫= f).2 = (f a).2.
Proof. destruct m as [l r]. simpl. intros ->. by destruct (f a). Qed.

Lemma bind_raise {A B} (m : Eff A) (f : A → Eff B) e :
  m.2 = Raise e → (m ≫= f).2 = Raise e.
Proof. destruct m as [l r]. simpl. by intros ->. Qed.

Lemma find_existsb {X} (f : X → bool) (l : list X) :
  match List.find f l with Some _ => true | None => false end = existsb f l.
Proof. induction l as [|x l IH]; simpl; [done|]. by destruct (f x). Qed.

Section DiscoveryFacts.
Context (self : SimpleDirectoryReader).

Lemma scan_result rf rd refs acc :
  (scan self rf rd refs acc).2
  = Ok (list_to_set (List.filter (kept self rf rd) (PurePath.of_string <$> refs)) ∪ acc).
Proof.
  revert acc. induction refs as [|ref refs IH]; intros acc.
  - simpl. f_equal. by rewrite (left_id_L ∅ (∪)).
  - cbn [scan fmap list_fmap List.filter].
    set (p := PurePath.of_string ref).
    set (excl := existsb (λ d, Py.startswith
                   (if isdir (_fs self) (PurePath.str p) then PurePath.str p
                    else _parent (_fs self) (PurePath.str p)) (PurePath.str d))
                   (elements rd)).
    erewrite (bind_result _ _ (bool_decide (p ∈ rf) || excl)).
    + unfold kept. fold p. fold excl.
      destruct (isdir (_fs self) (PurePath.str p) || _ || _ || _); cbn [negb].
      * apply IH.
      * rewrite IH. f_equal. cbn [list_to_set foldr].
        rewrite (assoc_L (∪)). f_equal. apply (comm_L (∪)).
    + destruct (bool_decide (p ∈ rf)); cbn [negb orb]; [done|].
      unfold excl. rewrite <- find_existsb.
      by destruct (List.find _ _).
Qed.

Lemma add_files_result input_dir :
  (_add_files self input_dir).2
  = let sorted := merge_sort PurePath.le (elements (candidates self input_dir)) in
    match sorted with
    | [] => Raise (ValueError ("No files found in "
                               +:+ PurePath.str input_dir +:+ "."))
    | _ => Ok (capped self sorted)
    end.
Proof.
  unfold _add_files, candidates.
  destruct (rejected self input_dir) as [rf rd].
  erewrite bind_result; [|apply scan_result].
  rewrite (right_id_L ∅ (∪)).
  set (sorted := merge_sort _ _). cbv zeta.
  destruct sorted as [|p rest] eqn:E; [done|].
  cbn [length Nat.eqb]. unfold capped.
  repeat (erewrite bind_result; [|reflexivity]). done.
Qed.
End DiscoveryFacts.

(** ** The properties *)

Section Claims.
Context (config : Config) (host : Host) (keys : GlobalMetadata)
        (default_file_readers : loc).

Abbreviation load_data := (_load_data config host default_file_readers).
Abbreviation run_on := (run_task config host default_file_readers).


Lemma resolve_input_files_length fs paths files :
  (resolve_input_files config fs paths).2 = Ok files →
  length files = length paths.
Proof.
  revert files. induction paths as [|path paths IH]; intros files.
  - simpl. by intros [= <-].
  - cbn [resolve_input_files].
    set (m := if isfile fs path then _ else _).
    destruct m as [l1 [p|e]]; [|done]. cbn [mbind Eff_bind].
    destruct (resolve_input_files config fs paths) as [l2 [rest|e]];
      [|done].
    cbn. intros [= <-]. simpl. f_equal. by apply IH.
Qed.

Lemma add_files_nonempty self input_dir files :
  (_add_files self input_dir).2 = Ok files → files ≠ [].
Proof.
  rewrite add_files_result. cbv zeta.
  destruct (merge_sort _ _) as [|p rest]; [done|]. intros [= <-].
  unfold capped. destruct (_num_files_limit self) as [limit|]; [|done].
  destruct (Z.ltb_spec 0 limit); [|done].
  destruct (Z.to_nat limit) eqn:E; [lia|done].
Qed.

(** A reader object the constructor returns holds at least one file. *)
Lemma init_input_files_nonempty a h h' evs self :
  __init__ config host keys a h = (h', (evs, Ok self)) → _input_files self ≠ [].
Proof.
  unfold __init__.
  destruct (negb _ && negb _ || _ && _); [done|].
  destruct (match Args.file_extractor a with Some _ => _ | None => _ end)
    as [h1 fe].
  match goal with
  | |- context [if ?c then resolve_input_files ?x ?y ?z else ?d] =>
      set (found := if c then resolve_input_files x y z else d)
  end.
  assert (∀ files, found.2 = Ok files → files ≠ []) as Hfound.
  { intros files. subst found.
    destruct (Args.input_files a) as [[|path paths]|].
    - destruct (negb (isdir _ _)); [done|]. apply add_files_nonempty.
    - cbn [default]. intros Hres%resolve_input_files_length.
      by destruct files.
    - destruct (negb (isdir _ _)); [done|]. apply add_files_nonempty. }
  destruct found as [l [files|e]]; [|done].
  intros [= _ _ <-]. simpl. by apply Hfound.
Qed.

Lemma fst_zip_take {X Y} (l : list X) (k : list Y) :
  (zip l k).*1 = take (length k) l.
Proof.
  revert k. induction l as [|x l IH]; intros [|y k]; simpl; try done.
  by rewrite IH.
Qed.

Lemma zip_take_l {X Y} (l : list X) (k : list Y) :
  zip (take (length k) l) k = zip l k.
Proof.
  revert k. induction l as [|x l IH]; intros [|y k]; simpl; try done.
  by rewrite IH.
Qed.

Lemma zip_metadatas_nonempty files metas :
  files ≠ [] → zip_metadatas files metas ≠ [].
Proof. destruct files; [done|]. by destruct metas as [[|m ms]|]. Qed.


(** *** Dispatch *)

Lemma load_file_loop_find input_file gen user enc fs items :
  load_file_loop config host input_file gen user enc fs items
  = match List.find (λ e, matches host input_file e.1) items with
    | Some e => dispatch config input_file gen user e.2 fs
    | None => fallback config host input_file user enc fs
    end.
Proof.
  induction items as [|[pattern extractor] items IH]; simpl; [done|].
  by destruct (matches host input_file pattern).
Qed.

Lemma find_none_unmatched input_file (items : Dict.t Extractor) :
  List.find (λ e, matches host input_file e.1) items = None
  ↔ ∀ e, e ∈ items → matches host input_file e.1 = false.
Proof.
  split.
  - intros H e He. apply list_elem_of_In in He.
    by apply (find_none _ _ H).
  - intros H. induction items as [|e items IH]; simpl; [done|].
    rewrite (H e) by left. apply IH. intros e' He'. apply H. by right.
Qed.

Lemma dispatch_raises input_file gen user extractor fs e :
  instantiate extractor input_file (reader_kwargs fs) = Raise e →
  (dispatch config input_file gen user extractor fs).2 = Raise e.
Proof. intros H. unfold dispatch. by rewrite H. Qed.

Lemma fallback_decode_failure input_file user enc fs bs :
  use_fallback_reader config = true →
  open (Py.or_default fs (get_default_fs host)) (PurePath.str input_file) = Ok bs →
  decode host enc bs = None →
  fallback config host input_file user enc fs
  = ([LOG ERROR ("no pattern found for " +:+ PurePath.str input_file
                 +:+ " and it is not utf-8, skip it!")], Ok []).
Proof.
  intros Hfb Hopen Hdec. unfold fallback. rewrite Hfb, Hopen. cbn.
  by rewrite Hdec.
Qed.

Lemma fallback_open_failure input_file user enc fs e :
  use_fallback_reader config = true →
  open (Py.or_default fs (get_default_fs host)) (PurePath.str input_file) = Raise e →
  fallback config host input_file user enc fs = ([], Raise e).
Proof. intros Hfb Hopen. unfold fallback. by rewrite Hfb, Hopen. Qed.

(** What any load returns on a batch that is not empty. *)
Lemma load_data_value self show nw fs oracle h :
  tasks_of self ≠ [] →
  value (load_data self show nw fs oracle h).2
  = (λ rs, _exclude_metadata (concat rs))
      <$> mapM (λ t, value (run_on self h t)) (tasks_of self).
Proof.
  intros Hne. destruct nw as [n|]; [|apply sequential_value].
  destruct (Z.le_gt_cases 1 n).
  - by apply parallel_value.
  - rewrite sequential_value_nonpositive by lia. apply sequential_value.
Qed.

Lemma load_data_raises self show nw fs oracle h task :
  task ∈ tasks_of self → value (run_on self h task) = None →
  value (load_data self show nw fs oracle h).2 = None.
Proof.
  intros Hin Hnone. rewrite load_data_value.
  - rewrite (mapM_None_2 _ (tasks_of self)); [done|].
    apply Exists_exists. eauto.
  - intros Hnil. rewrite Hnil in Hin. by apply elem_of_nil in Hin.
Qed.



(** C5: the warning is written, but the pool is created with the
    requested number of workers, not with the CPU count. *)
Theorem pool_size_is_the_requested_count self show n fs oracle h :
  (1 ≤ n)%Z → (Z.of_nat (cpu_count host) < n)%Z →
  events (load_data self show (Some n) fs oracle h).2
  = [LOG WARNING "Specified num_workers exceed number of CPUs in the system. Setting `num_workers` down to the maximum CPU count.";
     POOL (Z.to_nat n)]
  ∧ cpu_count host < Z.to_nat n.
Proof.
  intros Hn Hcpu. split; [|lia].
  unfold _load_data.
  destruct (build_file_readers _ _ _) as [h' fr]. cbn [snd].
  rewrite (proj2 (Z.leb_le 1 n)), (proj2 (Z.ltb_lt _ n)) by done.
  unfold events. cbn [mbind Eff_bind log fst snd app].
  destruct (Pool.starmap _ _ _ _) as [results|e]; cbn; [|done].
  by destruct (reduce_add results).
Qed.

(** C9: a load leaves every dictionary of the store as it was, the
    caller's [file_extractor] and the class table [default_file_readers]
    among them; the registry it dispatches on is a new object. *)
Theorem load_data_preserves_registries self show nw fs oracle h :
  is_Some (h !! _file_extractor self) →
  is_Some (h !! default_file_readers) →
  let h' := (load_data self show nw fs oracle h).1 in
  h' !! _file_extractor self = h !! _file_extractor self
  ∧ h' !! default_file_readers = h !! default_file_readers
  ∧ ((build_file_readers default_file_readers self h).2 ∉ dom h)
  ∧ ∀ l, l ∈ dom h → h' !! l = h !! l.
Proof.
  intros Hfe Hdf h'. unfold h'. rewrite load_data_heap.
  assert (∀ l, l ∈ dom h →
            (build_file_readers default_file_readers self h).1 !! l
            = h !! l) as Hframe.
  { intros l Hl. apply build_file_readers_frame. intros ->.
    by apply is_fresh in Hl. }
  split; [by apply Hframe, elem_of_dom|].
  split; [by apply Hframe, elem_of_dom|].
  split; [apply is_fresh|done].
Qed.

(** C1: on the fallback path the node carries the caller's metadata
    only; what the generator produced for the file is left out, so the
    record is not the three-tier merge as soon as the generator yields a
    key the caller did not supply. *)
Theorem fallback_node_lacks_generated_metadata
    input_file g registry enc fs md bs data k v :
  (∀ e, e ∈ registry → matches host input_file e.1 = false) →
  use_fallback_reader config = true →
  open (Py.or_default fs (get_default_fs host)) (PurePath.str input_file)
    = Ok bs →
  decode host enc bs = Some data →
  g (PurePath.str input_file) !! k = Some v →
  Py.or_default md ∅ !! k = None →
  ∃ node,
    (load_file config host input_file (Some g) registry enc fs md).2 = Ok [node]
    ∧ _global_metadata node = Some (Py.or_default md ∅)
    ∧ _global_metadata node
      ≠ Some (merge_metadata (g (PurePath.str input_file)) None
                (Py.or_default md ∅)).
Proof.
  intros Hun Hfb Hopen Hdec Hgen Huser.
  exists (DocNode_new data (Py.or_default md ∅)).
  split; [|split; [done|]].
  - unfold load_file. rewrite load_file_loop_find.
    rewrite (proj2 (find_none_unmatched _ _) Hun).
    unfold fallback. rewrite Hfb, Hopen. cbn. by rewrite Hdec.
  - cbn. intros [= Heq].
    assert (merge_metadata (g (PurePath.str input_file)) None
              (Py.or_default md ∅) !! k = Some v) as Hk.
    { unfold merge_metadata, update. cbn.
      rewrite lookup_union_r by done.
      rewrite lookup_union_r by apply lookup_empty. done. }
    rewrite <- Heq in Hk. congruence.
Qed.

(** The matched branch, for comparison: every node the reader returns
    gets the three-tier merge. *)
Lemma dispatch_merges_metadata input_file gen user extractor fs docs node :
  (dispatch config input_file gen user extractor fs).2 = Ok docs →
  node ∈ docs →
  ∃ attached,
    _global_metadata node = Some (merge_metadata gen attached user).
Proof.
  unfold dispatch.
  destruct (instantiate extractor input_file (reader_kwargs fs)) as [out|e];
    [|done].
  cbn. set (ds := match out with OneNode d => [d] | NodeList ds => ds end).
  destruct (rag_filename_as_id config); cbn; intros [= <-].
  - rewrite list_elem_of_lookup. intros [i Hi].
    rewrite list_lookup_imap in Hi.
    rewrite list_lookup_fmap in Hi.
    destruct (ds !! i) as [d|]; [|done]. cbn in Hi. injection Hi as <-.
    by eexists.
  - intros (d & -> & _)%list_elem_of_fmap. by eexists.
Qed.

(** C8: a file no pattern matches is read as raw text when the fallback
    reader is enabled, giving one node with the decoded content; with the
    fallback disabled it gives no node, with a warning and without
    raising. *)
Theorem unmatched_file_fallback input_file genf registry enc fs md :
  (∀ e, e ∈ registry → matches host input_file e.1 = false) →
  (use_fallback_reader config = true →
   ∀ bs data,
     open (Py.or_default fs (get_default_fs host)) (PurePath.str input_file)
       = Ok bs →
     decode host enc bs = Some data →
     ∃ node, load_file config host input_file genf registry enc fs md = ([], Ok [node])
             ∧ text node = data)
  ∧ (use_fallback_reader config = false →
     load_file config host input_file genf registry enc fs md
     = ([LOG WARNING ("no pattern found for " +:+ PurePath.str input_file
                      +:+ "! If you want fallback to default Reader, set `LAZYLLM_USE_FALLBACK_READER=True`.")],
        Ok [])).
Proof.
  intros Hun. unfold load_file. rewrite load_file_loop_find.
  rewrite (proj2 (find_none_unmatched _ _) Hun). unfold fallback. split.
  - intros Hfb bs data Hopen Hdec. rewrite Hfb, Hopen. cbn. rewrite Hdec.
    by eexists.
  - by intros ->.
Qed.

Lemma find_app_l {X} (f : X → bool) (l1 l2 : list X) x :
  List.find f l1 = Some x → List.find f (l1 ++ l2) = Some x.
Proof.
  induction l1 as [|y l1 IH]; simpl; [done|]. by destruct (f y).
Qed.

Lemma find_first {X} (f : X → bool) (l : list X) i x :
  l !! i = Some x → f x = true →
  (∀ j y, j < i → l !! j = Some y → f y = false) →
  List.find f l = Some x.
Proof.
  revert i. induction l as [|y l IH]; intros [|i] Hi Hx Hbefore;
    simpl in *; try done.
  - injection Hi as ->. by rewrite Hx.
  - rewrite (Hbefore 0 y) by (done || lia). apply (IH i); [done..|].
    intros j z Hj Hz. apply (Hbefore (S j) z); [lia|done].
Qed.

End Claims.

Section DiscoveryClaims.
Context (self : SimpleDirectoryReader).

Lemma elem_of_take_inv {X} (x : X) n (l : list X) : x ∈ take n l → x ∈ l.
Proof.
  intros H. rewrite <- (take_drop n l). apply elem_of_app. by left.
Qed.

Lemma StronglySorted_take {X} (R : relation X) n (l : list X) :
  StronglySorted R l → StronglySorted R (take n l).
Proof.
  intros H. rewrite <- (take_drop n l) in H.
  by apply StronglySorted_app_1_l in H.
Qed.

Lemma NoDup_take_of {X} n (l : list X) : NoDup l → NoDup (take n l).
Proof.
  intros H. rewrite <- (take_drop n l) in H. by apply NoDup_app in H as [H _].
Qed.

Lemma candidates_kept input_dir p :
  p ∈ candidates self input_dir →
  isdir (_fs self) (PurePath.str p) = false
  ∧ (_exclude_hidden self = true → _is_hidden p = false).
Proof.
  unfold candidates. destruct (rejected self input_dir) as [rf rd].
  rewrite elem_of_list_to_set, list_elem_of_In, filter_In.
  intros [_ Hk]. unfold kept in Hk. apply negb_true_iff in Hk.
  apply orb_false_elim in Hk as [Hk _].
  apply orb_false_elim in Hk as [Hk _].
  apply orb_false_elim in Hk as [Hdir Hhid].
  split; [done|]. intros Hex. by rewrite Hex in Hhid.
Qed.

(** C7: the discovery result is ascending in the order of paths, free of
    duplicates and free of directories; an empty candidate set raises;
    with a positive cap the result is the first cap-many candidates in
    sorted order. *)
Theorem add_files_sorted_unique_capped input_dir :
  let sorted := merge_sort PurePath.le (elements (candidates self input_dir)) in
  (candidates self input_dir = ∅ →
   (_add_files self input_dir).2
   = Raise (ValueError ("No files found in " +:+ PurePath.str input_dir +:+ ".")))
  ∧ (candidates self input_dir ≠ ∅ →
     ∃ files,
       (_add_files self input_dir).2 = Ok files
       ∧ StronglySorted PurePath.le files
       ∧ NoDup files
       ∧ (∀ p, p ∈ files →
            p ∈ candidates self input_dir
            ∧ isdir (_fs self) (PurePath.str p) = false)
       ∧ StronglySorted PurePath.le sorted
       ∧ sorted ≡ₚ elements (candidates self input_dir)
       ∧ match _num_files_limit self with
         | Some limit =>
             if (0 <? limit)%Z then files = take (Z.to_nat limit) sorted
             else files = sorted
         | None => files = sorted
         end).
Proof.
  intros sorted. rewrite add_files_result. fold sorted. cbv zeta.
  assert (sorted ≡ₚ elements (candidates self input_dir)) as Hperm
    by apply merge_sort_Permutation.
  assert (StronglySorted PurePath.le sorted) as Hsorted
    by (apply StronglySorted_merge_sort; apply _).
  assert (NoDup sorted) as Hnd by (rewrite Hperm; apply NoDup_elements).
  split.
  - intros Hempty. rewrite Hempty, elements_empty in Hperm.
    apply Permutation_nil_r in Hperm. by rewrite Hperm.
  - intros Hne. destruct sorted as [|p rest] eqn:E.
    { symmetry in Hperm. apply Permutation_nil_r in Hperm.
      apply elements_empty_inv in Hperm. by apply leibniz_equiv in Hperm. }
    rewrite <- E in *. exists (capped self sorted).
    assert (∀ q, q ∈ capped self sorted → q ∈ sorted) as Hsub.
    { intros q. unfold capped. destruct (_num_files_limit self) as [limit|];
        [|done].
      destruct (0 <? limit)%Z; [apply elem_of_take_inv|done]. }
    split; [done|]. split; [|split; [|split; [|split; [done|split; [done|]]]]].
    + unfold capped. destruct (_num_files_limit self) as [limit|]; [|done].
      destruct (0 <? limit)%Z; [by apply StronglySorted_take|done].
    + unfold capped. destruct (_num_files_limit self) as [limit|]; [|done].
      destruct (0 <? limit)%Z; [by apply NoDup_take_of|done].
    + intros q Hq%Hsub. rewrite Hperm in Hq. apply elem_of_elements in Hq.
      split; [done|]. by apply candidates_kept in Hq as [? _].
    + unfold capped. destruct (_num_files_limit self) as [limit|]; [|done].
      by destruct (0 <? limit)%Z.
Qed.

Lemma is_hidden_spec (p : PurePath.t) :
  _is_hidden p = true
  ↔ ∃ part, part ∈ PurePath.parts p ∧ Py.startswith part "." = true
            ∧ part ≠ "." ∧ part ≠ "..".
Proof.
  unfold _is_hidden. rewrite existsb_exists. split.
  - intros (part & Hin & Hp). apply andb_true_iff in Hp as [Hdot Hno].
    exists part. split; [by apply list_elem_of_In|]. split; [done|].
    apply negb_true_iff in Hno. unfold in_list in Hno. simpl in Hno.
    split; intros ->; by rewrite ?String.eqb_refl, ?orb_true_r in Hno.
  - intros (part & Hin & Hdot & H1 & H2). exists part.
    split; [by apply list_elem_of_In|]. rewrite Hdot. cbn.
    apply String.eqb_neq in H1, H2. by rewrite H1, H2.
Qed.

(** C10: the hidden test looks at every part of the entry's path, the
    parts of the input directory included: with hidden files excluded, an
    input directory that has a dot-prefixed part (other than "." and "..")
    loses every entry found under it, and discovery raises. *)
Theorem hidden_input_dir_finds_nothing input_dir :
  _exclude_hidden self = true →
  _is_hidden input_dir = true →
  (∀ ref, ref ∈ file_refs self input_dir →
     ∃ pre suf, PurePath.of_string ref = pre ++ input_dir ++ suf) →
  (∀ p, _is_hidden p = true
        ↔ ∃ part, part ∈ PurePath.parts p ∧ Py.startswith part "." = true
                  ∧ part ≠ "." ∧ part ≠ "..")
  ∧ candidates self input_dir = ∅
  ∧ (_add_files self input_dir).2
    = Raise (ValueError ("No files found in " +:+ PurePath.str input_dir +:+ ".")).
Proof.
  intros Hex Hhid Hunder. split; [apply is_hidden_spec|].
  assert (candidates self input_dir = ∅) as Hempty.
  { apply leibniz_equiv. apply elem_of_equiv_empty. intros p Hp.
    pose proof (candidates_kept _ _ Hp) as [_ Hvis].
    specialize (Hvis Hex).
    unfold candidates in Hp. destruct (rejected self input_dir) as [rf rd].
    rewrite elem_of_list_to_set, list_elem_of_In, filter_In in Hp.
    destruct Hp as [Hp _]. apply list_elem_of_In, list_elem_of_fmap in Hp
      as (ref & -> & Hin).
    destruct (Hunder ref Hin) as (pre & suf & Heq). rewrite Heq in Hvis.
    unfold _is_hidden, PurePath.parts in Hvis, Hhid.
    rewrite !existsb_app, Hhid in Hvis. by rewrite orb_true_r in Hvis. }
  split; [done|]. rewrite add_files_result, Hempty, elements_empty. done.
Qed.
End DiscoveryClaims.

(** ** Further properties: generated metadata and construction *)

Section Construction.
Context (config : Config) (host : Host) (keys : GlobalMetadata).

(** X1: the default generator writes the path and the file name always,
    every other attribute only when it can be determined, and no key besides
    its seven. *)
Theorem default_metadata_fields fs file_path :
  NoDup (generated_keys keys) →
  let st := stat (Py.or_default fs (get_default_fs host)) file_path in
  let md := _DefaultFileMetadataFunc host keys fs file_path in
  md !! RAG_DOC_PATH keys = Some (VStr file_path)
  ∧ md !! RAG_DOC_FILE_NAME keys
    = Some (VStr (basename (match st !! "name" with
                           | Some v => str_of_value v
                           | None => file_path
                           end)))
  ∧ md !! RAG_DOC_FILE_TYPE keys = VStr <$> guess_type host file_path
  ∧ md !! RAG_DOC_FILE_SIZE keys = st !! "size"
  ∧ md !! RAG_DOC_CREATION_DATE keys
    = VStr <$> _file_timestamp_format host (st !! "created") false
  ∧ md !! RAG_DOC_LAST_MODIFIED_DATE keys
    = VStr <$> _file_timestamp_format host (st !! "mtime") false
  ∧ md !! RAG_DOC_LAST_ACCESSED_DATE keys
    = VStr <$> _file_timestamp_format host (st !! "atime") false
  ∧ (∀ k, is_Some (md !! k) → k ∈ generated_keys keys)
  ∧ (st !! "created" = None → md !! RAG_DOC_CREATION_DATE keys = None).
Proof.
  intros Hnd st md. unfold generated_keys in *.
  repeat (apply NoDup_cons in Hnd as [? Hnd]).
  repeat match goal with
         | H : _ ∉ _ :: _ |- _ => apply not_elem_of_cons in H as [? H]
         end.
  assert (∀ k, md !! k
    = (<[RAG_DOC_LAST_ACCESSED_DATE keys :=
           VStr <$> _file_timestamp_format host (st !! "atime") false]>
       (<[RAG_DOC_LAST_MODIFIED_DATE keys :=
            VStr <$> _file_timestamp_format host (st !! "mtime") false]>
       (<[RAG_DOC_CREATION_DATE keys :=
            VStr <$> _file_timestamp_format host (st !! "created") false]>
       (<[RAG_DOC_FILE_SIZE keys := st !! "size"]>
       (<[RAG_DOC_FILE_TYPE keys := VStr <$> guess_type host file_path]>
       (<[RAG_DOC_FILE_NAME keys :=
            Some (VStr (basename (match st !! "name" with
                                  | Some v => str_of_value v
                                  | None => file_path
                                  end)))]>
       (<[RAG_DOC_PATH keys := Some (VStr file_path)]>
          (∅ : gmap string (option MetaValue))))))))) !! k ≫= id) as Hmd.
  { intros k. unfold md, _DefaultFileMetadataFunc. rewrite lookup_omap.
    fold st. by destruct (st !! "name"). }
  repeat split.
  1-7: rewrite Hmd; simplify_map_eq; by try destruct (_ <$> _).
  - intros k [v Hk]. rewrite Hmd in Hk.
    repeat match type of Hk with
           | context [<[?key := _]> _ !! k] =>
               destruct (decide (k = key)) as [-> | ?];
               [rewrite !elem_of_cons; eauto 10
               | rewrite lookup_insert_ne in Hk by done]
           end.
    by rewrite lookup_empty in Hk.
  - intros Hc. rewrite Hmd. simplify_map_eq. by rewrite Hc.
Qed.

(** X2: the constructor refuses a call that gives neither or both of
    [input_dir] and [input_files] (an empty string or an empty list counts as
    not given), and a directory that does not exist; it raises before it
    touches the store or logs. *)
Theorem constructor_rejects_bad_arguments a h :
  (given_dir a = given_files a →
   __init__ config host keys a h
   = (h, ([], Raise (ValueError "Must provide either `input_dir` or `input_files`."))))
  ∧ (∀ d, Args.input_dir a = Some d → given_dir a = true →
          given_files a = false →
          isdir (Py.or_default (Args.fs a) (get_default_fs host)) d = false →
          __init__ config host keys a h
          = (h, ([], Raise (ValueError ("Directory " +:+ d +:+ " does not exist."))))).
Proof.
  unfold __init__, given_dir, given_files. split.
  - intros ->. by destruct (match Args.input_files a with
                            | Some (_ :: _) => true | _ => false end).
  - intros d Hd Hdir Hfiles Hisdir. rewrite Hfiles, Hd in *. rewrite Hdir.
    cbn [negb andb orb from_option id].
    destruct (match Args.file_extractor a with Some _ => _ | None => _ end)
      as [h1 fe].
    by rewrite Hisdir.
Qed.

Lemma resolve_input_files_ok fs paths :
  (∀ p, p ∈ paths → is_Some (resolved config fs p)) →
  resolve_input_files config fs paths
  = ([], Ok (omap (λ p, PurePath.of_string <$> resolved config fs p) paths)).
Proof.
  induction paths as [|p paths IH]; intros Hall; [done|].
  cbn [resolve_input_files omap list_omap].
  destruct (Hall p) as [q Hq]; [left|]. rewrite Hq. cbn [fmap option_fmap option_map].
  unfold resolved in Hq. rewrite IH by (intros; apply Hall; by right).
  destruct (isfile fs p).
  - by injection Hq as <-.
  - destruct (isfile fs (Py.ospath_join (data_path config) p)); [|done].
    by injection Hq as <-.
Qed.

Lemma resolve_input_files_missing fs pre q post :
  (∀ p, p ∈ pre → is_Some (resolved config fs p)) →
  resolved config fs q = None →
  resolve_input_files config fs (pre ++ q :: post)
  = ([], Raise (ValueError ("File " +:+ Py.ospath_join (data_path config) q
                            +:+ " does not exist."))).
Proof.
  induction pre as [|p pre IH]; intros Hall Hq.
  - cbn [app resolve_input_files]. unfold resolved in Hq.
    destruct (isfile fs q); [done|].
    by destruct (isfile fs (Py.ospath_join (data_path config) q)).
  - cbn [app resolve_input_files].
    rewrite IH by (try done; intros; apply Hall; by right).
    destruct (Hall p) as [r Hr]; [left|]. unfold resolved in Hr.
    destruct (isfile fs p); [done|].
    by destruct (isfile fs (Py.ospath_join (data_path config) p)).
Qed.

(** X3: given a list of files, the constructor takes them in the order
    given, each as it is when it is a file and else under the data root; no
    discovery filter applies to them, and nothing is logged. It succeeds
    exactly when every file is found in one of the two places. *)
Theorem constructor_resolves_input_files a h :
  given_dir a = false → given_files a = true →
  let fs := Py.or_default (Args.fs a) (get_default_fs host) in
  let paths := default [] (Args.input_files a) in
  (∀ p, p ∈ paths → is_Some (resolved config fs p)) →
  ∃ h' self,
    __init__ config host keys a h
    = (h', ((if Args.filename_as_id a
             then [LOG WARNING "Argument `filename_as_id` for DataReader is no longer used"]
             else []), Ok self))
    ∧ length (_input_files self) = length paths
    ∧ ∀ i p, paths !! i = Some p →
        _input_files self !! i = PurePath.of_string <$> resolved config fs p.
Proof.
  intros Hdir Hfiles fs paths Hall.
  unfold __init__. fold (given_dir a) (given_files a). rewrite Hdir, Hfiles.
  cbn [negb andb orb].
  destruct (match Args.file_extractor a with Some _ => _ | None => _ end)
    as [h1 fe].
  fold fs paths. rewrite resolve_input_files_ok by done.
  eexists _, _. split; [reflexivity|]. cbn [_input_files with_input_files].
  assert (∀ l, (∀ p, p ∈ l → is_Some (resolved config fs p)) →
            length (omap (λ p, PurePath.of_string <$> resolved config fs p) l)
            = length l
            ∧ ∀ i p, l !! i = Some p →
                omap (λ p, PurePath.of_string <$> resolved config fs p) l !! i
                = PurePath.of_string <$> resolved config fs p) as Hgen.
  { clear. induction l as [|q l IH]; intros Hall; [done|].
    destruct (Hall q) as [r Hr]; [left|].
    destruct IH as [IH1 IH2]; [intros; apply Hall; by right|].
    cbn [omap list_omap]. rewrite Hr. cbn. split; [by rewrite IH1|].
    intros [|i] p Hp; cbn in *.
    - injection Hp as <-. by rewrite Hr.
    - by apply IH2. }
  by apply Hgen.
Qed.

(** X4: the first listed file that is found neither as given nor under
    the data root makes the constructor raise, naming the path under the data
    root; the store is as before. *)
Theorem constructor_missing_file_raises a h pre q post :
  given_dir a = false →
  Args.input_files a = Some (pre ++ q :: post) →
  let fs := Py.or_default (Args.fs a) (get_default_fs host) in
  (∀ p, p ∈ pre → is_Some (resolved config fs p)) →
  resolved config fs q = None →
  __init__ config host keys a h
  = (h, ([], Raise (ValueError ("File " +:+ Py.ospath_join (data_path config) q
                                +:+ " does not exist.")))).
Proof.
  intros Hdir Hfiles fs Hall Hq.
  unfold __init__. fold (given_dir a). rewrite Hdir, Hfiles.
  assert (match pre ++ q :: post with _ :: _ => true | [] => false end = true)
    as -> by by destruct pre.
  cbn [negb andb orb from_option id].
  destruct (match Args.file_extractor a with Some _ => _ | None => _ end)
    as [h1 fe].
  fold fs. by rewrite resolve_input_files_missing.
Qed.

(** X5: the constructor never changes a dictionary of the store. A
    non-empty [file_extractor] is kept by reference, with the store unchanged;
    a missing or empty one is replaced by a new empty dictionary. A
    constructor call that raises leaves the store as it was. *)
Theorem constructor_keeps_registry_by_reference a h :
  let r := __init__ config host keys a h in
  (∀ l, l ∈ dom h → r.1 !! l = h !! l)
  ∧ (∀ e, r.2.2 = Raise e → r.1 = h)
  ∧ (∀ self, r.2.2 = Ok self →
       match Args.file_extractor a with
       | Some l =>
           match deref h l with
           | [] => (_file_extractor self ∉ dom h)
                   ∧ r.1 = <[_file_extractor self := []]> h
           | _ :: _ => _file_extractor self = l ∧ r.1 = h
           end
       | None => (_file_extractor self ∉ dom h)
                 ∧ r.1 = <[_file_extractor self := []]> h
       end).
Proof.
  intros r. unfold r, __init__.
  destruct (negb _ && negb _ || _ && _); [by repeat split|].
  assert (∀ l : loc, l ∈ dom h → <[fresh (dom h) := []]> h !! l = h !! l)
    as Hfresh.
  { intros l Hl. apply lookup_insert_ne. intros <-. by apply is_fresh in Hl. }
  destruct (Args.file_extractor a) as [l0|]; [destruct (deref h l0)|];
    unfold alloc;
    match goal with
    | |- context [if ?c then resolve_input_files ?x ?y ?z else ?d] =>
        destruct (if c then resolve_input_files x y z else d) as [evs [files|e]]
    end; cbn [fst snd];
    (split; [done || by auto|]); (split; [done|]);
    intros self [= <-]; cbn; (split; [apply is_fresh || done|done]).
Qed.
End Construction.

(** ** Further properties: discovery *)

Lemma in_list_elem_of (x : string) (l : list string) :
  in_list x l = true ↔ x ∈ l.
Proof.
  unfold in_list. rewrite existsb_exists. split.
  - intros (y & Hin & ->%String.eqb_eq). by apply list_elem_of_In.
  - intros Hin. exists x. split; [by apply list_elem_of_In|apply String.eqb_refl].
Qed.

Section Discovery.
Context (self : SimpleDirectoryReader).

Lemma kept_passes rf rd p : kept self rf rd p = true ↔ passes self rf rd p.
Proof.
  unfold kept, passes. rewrite negb_true_iff, !orb_false_iff.
  rewrite bool_decide_eq_false.
  split.
  - intros (((Hdir & Hhid) & Hext) & Hrf & Hrd). rewrite Hdir in Hrd.
    split; [done|]. split.
    { intros Hex. by rewrite Hex in Hhid. }
    split.
    { intros exts Hexts. rewrite Hexts in Hext.
      apply negb_false_iff in Hext. by apply in_list_elem_of. }
    split; [done|]. intros d Hd.
    destruct (Py.startswith _ (PurePath.str d)) eqn:E; [|done].
    assert (existsb (λ rejected_dir, Py.startswith
              (_parent (_fs self) (PurePath.str p)) (PurePath.str rejected_dir))
              (elements rd) = true) as Hc; [|by rewrite Hc in Hrd].
    apply existsb_exists. exists d. split; [|done].
    by apply list_elem_of_In, elem_of_elements.
  - intros (Hdir & Hhid & Hext & Hrf & Hrd). rewrite Hdir.
    repeat split; try done.
    + destruct (_exclude_hidden self); [by apply Hhid|done].
    + destruct (_required_exts self) as [exts|]; [|done].
      apply negb_false_iff, in_list_elem_of. by apply Hext.
    + destruct (existsb _ (elements rd)) eqn:E; [|done].
      apply existsb_exists in E as (d & Hd & Hs).
      apply list_elem_of_In, elem_of_elements in Hd. by rewrite Hrd in Hs.
Qed.

Lemma no_cap_capped files :
  (∀ limit, _num_files_limit self = Some limit →
            (limit ≤ 0)%Z ∨ length files ≤ Z.to_nat limit) →
  capped self files = files.
Proof.
  unfold capped. destruct (_num_files_limit self) as [limit|]; [|done].
  intros Hl. destruct (Hl limit eq_refl).
  - by rewrite (proj2 (Z.ltb_ge 0 limit)).
  - destruct (0 <? limit)%Z; [by apply take_ge|done].
Qed.

Lemma candidates_spec input_dir p :
  p ∈ candidates self input_dir
  ↔ (∃ ref, ref ∈ file_refs self input_dir ∧ p = PurePath.of_string ref)
    ∧ passes self (rejected self input_dir).1 (rejected self input_dir).2 p.
Proof.
  unfold candidates.
  destruct (rejected self input_dir) as [rf rd]. cbn [fst snd].
  rewrite elem_of_list_to_set, list_elem_of_In, filter_In, kept_passes.
  rewrite <- list_elem_of_In, list_elem_of_fmap.
  split; intros [(ref & H1 & H2) Hp]; (split; [exists ref|]); done.
Qed.

Lemma returned_files_are_candidates input_dir files p :
  (_add_files self input_dir).2 = Ok files →
  p ∈ files → p ∈ candidates self input_dir.
Proof.
  rewrite add_files_result. cbv zeta.
  pose proof (merge_sort_Permutation PurePath.le
                (elements (candidates self input_dir))) as Hperm.
  destruct (merge_sort _ _) as [|q rest] eqn:E; [done|]. rewrite <- E in *.
  intros [= <-] Hp. apply elem_of_elements. rewrite <- Hperm.
  revert Hp. unfold capped. destruct (_num_files_limit self) as [limit|];
    [|done].
  destruct (0 <? limit)%Z; [apply elem_of_take_inv|done].
Qed.

(** X6: every file discovery returns comes from the expansion of the
    directory and passes all the filters; when no cap is in force, every
    entry of the expansion that passes the filters is returned. *)
Theorem add_files_returns_what_passes input_dir files :
  (_add_files self input_dir).2 = Ok files →
  let rf := (rejected self input_dir).1 in
  let rd := (rejected self input_dir).2 in
  (∀ p, p ∈ files →
     (∃ ref, ref ∈ file_refs self input_dir ∧ p = PurePath.of_string ref)
     ∧ passes self rf rd p)
  ∧ ((∀ limit, _num_files_limit self = Some limit → (limit ≤ 0)%Z) →
     ∀ ref, ref ∈ file_refs self input_dir →
       passes self rf rd (PurePath.of_string ref) →
       PurePath.of_string ref ∈ files).
Proof.
  intros Hfiles rf rd. split.
  - intros p Hp. apply candidates_spec. by eapply returned_files_are_candidates.
  - intros Hnocap ref Href Hpass. revert Hfiles.
    rewrite add_files_result. cbv zeta.
    pose proof (merge_sort_Permutation PurePath.le
                  (elements (candidates self input_dir))) as Hperm.
    destruct (merge_sort _ _) as [|q rest] eqn:E; [done|]. rewrite <- E in *.
    intros [= <-]. rewrite no_cap_capped.
    + rewrite Hperm. apply elem_of_elements, candidates_spec.
      split; [by exists ref|done].
    + intros limit Hl. left. by apply Hnocap.
Qed.

Lemma with_limit_scan limit rf rd refs acc :
  scan (with_num_files_limit self limit) rf rd refs acc = scan self rf rd refs acc.
Proof.
  revert acc. induction refs as [|ref refs IH]; intros acc; [done|].
  cbn [scan]. cbn [with_num_files_limit _fs _exclude_hidden _required_exts].
  by rewrite !IH.
Qed.

(** X7: a cap of zero or below is no cap, and a cap that is not smaller
    than the number of candidates changes nothing: discovery then returns and
    logs exactly what it does without a cap. *)
Theorem add_files_cap_without_effect input_dir limit :
  _num_files_limit self = Some limit →
  ((limit ≤ 0)%Z
   ∨ size (candidates self input_dir) ≤ Z.to_nat limit) →
  _add_files self input_dir
  = _add_files (with_num_files_limit self None) input_dir.
Proof.
  intros Hlimit Hcase. unfold _add_files.
  change (rejected (with_num_files_limit self None) input_dir)
    with (rejected self input_dir).
  change (file_refs (with_num_files_limit self None) input_dir)
    with (file_refs self input_dir).
  pose proof (scan_result self (rejected self input_dir).1
                (rejected self input_dir).2 (file_refs self input_dir) ∅) as Hscan.
  assert (candidates self input_dir
          = list_to_set (List.filter
              (kept self (rejected self input_dir).1 (rejected self input_dir).2)
              (PurePath.of_string <$> file_refs self input_dir)) ∪ ∅) as Hcand.
  { unfold candidates. destruct (rejected self input_dir). cbn [fst snd].
    by rewrite (right_id_L ∅ (∪)). }
  rewrite <- Hcand in Hscan.
  destruct (rejected self input_dir) as [rf rd]. cbn [fst snd] in Hscan.
  rewrite with_limit_scan.
  destruct (scan self rf rd (file_refs self input_dir) ∅) as [evs [all|e]];
    simpl in Hscan; [|done].
  injection Hscan as ->. cbn [mbind Eff_bind].
  cbn [_num_files_limit with_num_files_limit]. rewrite Hlimit.
  set (sorted := merge_sort PurePath.le (elements (candidates self input_dir))).
  assert ((if (0 <? limit)%Z then take (Z.to_nat limit) sorted else sorted)
          = sorted) as ->; [|done].
  destruct Hcase as [Hle|Hge].
  - by rewrite (proj2 (Z.ltb_ge 0 limit)).
  - destruct (0 <? limit)%Z; [|done]. apply take_ge.
    unfold sorted. rewrite merge_sort_Permutation. done.
Qed.

Lemma rejected_inner_spec (l : list string) (acc : gset PurePath.t * gset PurePath.t) p :
  let r := fold_left
             (λ '(rejected_files, rejected_dirs) file,
                if isdir (_fs self) file
                then (rejected_files, {[PurePath.of_string file]} ∪ rejected_dirs)
                else ({[PurePath.of_string file]} ∪ rejected_files, rejected_dirs))
             l acc in
  (p ∈ r.1 ↔ p ∈ acc.1 ∨ ∃ file, file ∈ l ∧ isdir (_fs self) file = false
                               ∧ p = PurePath.of_string file)
  ∧ (p ∈ r.2 ↔ p ∈ acc.2 ∨ ∃ file, file ∈ l ∧ isdir (_fs self) file = true
                                 ∧ p = PurePath.of_string file).
Proof.
  revert acc. induction l as [|file l IH]; intros [rf rd]; cbn [fold_left fst snd].
  - split; (split; [by left|]); intros [?|(file & Hin & _)]; try done;
      by apply elem_of_nil in Hin.
  - destruct (isdir (_fs self) file) eqn:Hd.
    + destruct (IH (rf, {[PurePath.of_string file]} ∪ rd)) as [IH1 IH2].
      cbn [fst snd] in *. rewrite IH1, IH2. split.
      * split; intros [?|(f & Hf & Hfd & ->)]; eauto.
        -- right. exists f. split; [by right|done].
        -- apply elem_of_cons in Hf as [-> | Hf]; [congruence|]. right. eauto.
      * rewrite elem_of_union, elem_of_singleton.
        split.
        -- intros [[-> | ?]|(f & Hf & Hfd & ->)]; eauto.
           ++ right. exists file. split; [left|done].
           ++ right. exists f. split; [by right|done].
        -- intros [?|(f & Hf & Hfd & ->)]; eauto.
           apply elem_of_cons in Hf as [-> | Hf]; eauto.
    + destruct (IH ({[PurePath.of_string file]} ∪ rf, rd)) as [IH1 IH2].
      cbn [fst snd] in *. rewrite IH1, IH2. split.
      * rewrite elem_of_union, elem_of_singleton.
        split.
        -- intros [[-> | ?]|(f & Hf & Hfd & ->)]; eauto.
           ++ right. exists file. split; [left|done].
           ++ right. exists f. split; [by right|done].
        -- intros [?|(f & Hf & Hfd & ->)]; eauto.
           apply elem_of_cons in Hf as [-> | Hf]; eauto.
      * split; intros [?|(f & Hf & Hfd & ->)]; eauto.
        -- right. exists f. split; [by right|done].
        -- apply elem_of_cons in Hf as [-> | Hf]; [congruence|]. right. eauto.
Qed.

Lemma rejected_spec input_dir p :
  let matched (dir : bool) :=
    ∃ patterns pattern file,
      _exclude self = Some patterns ∧ pattern ∈ patterns
      ∧ file ∈ glob (_fs self) (PurePath.str (excluded_glob self input_dir pattern))
      ∧ isdir (_fs self) file = dir ∧ p = PurePath.of_string file in
  (p ∈ (rejected self input_dir).1 ↔ matched false)
  ∧ (p ∈ (rejected self input_dir).2 ↔ matched true).
Proof.
  cbv zeta. unfold rejected. destruct (_exclude self) as [patterns|].
  2: { cbn. split; (split; [by intros ?%not_elem_of_empty|]);
         by intros (? & ? & ? & ? & _). }
  assert (∀ (acc : gset PurePath.t * gset PurePath.t) (b : bool),
    p ∈ (if b then snd else fst)
          (fold_left
             (λ acc excluded_pattern,
                fold_left
                  (λ '(rejected_files, rejected_dirs) file,
                     if isdir (_fs self) file
                     then (rejected_files,
                           {[PurePath.of_string file]} ∪ rejected_dirs)
                     else ({[PurePath.of_string file]} ∪ rejected_files,
                           rejected_dirs))
                  (glob (_fs self)
                     (PurePath.str (excluded_glob self input_dir excluded_pattern)))
                  acc)
             patterns acc)
    ↔ p ∈ (if b then snd else fst) acc
      ∨ ∃ pattern file, pattern ∈ patterns
          ∧ file ∈ glob (_fs self)
                     (PurePath.str (excluded_glob self input_dir pattern))
          ∧ isdir (_fs self) file = b ∧ p = PurePath.of_string file) as Hgen.
  { induction patterns as [|pat patterns IH]; intros acc b; cbn [fold_left].
    - split; [by left|]. intros [?|(? & ? & Hin & _)]; [done|].
      by apply elem_of_nil in Hin.
    - rewrite IH.
      pose proof (rejected_inner_spec
                    (glob (_fs self)
                       (PurePath.str (excluded_glob self input_dir pat)))
                    acc p) as [H1 H2].
      cbv zeta in H1, H2.
      destruct b; [rewrite H2|rewrite H1]; split.
      all: try (intros [[?|(f & Hf & Hd & ->)]|(pt & f & Hpt & Hf & Hd & ->)];
                [by left
                |right; exists pat, f; split; [left|done]
                |right; exists pt, f; split; [by right|done]]).
      all: intros [?|(pt & f & Hpt & Hf & Hd & ->)]; [by left; left|].
      all: apply elem_of_cons in Hpt as [-> | Hpt];
             [left; right; eauto|right; eauto 10]. }
  split.
  - etrans; [apply (Hgen (∅, ∅) false)|]. cbn [fst].
    split.
    + intros [?%not_elem_of_empty|(pt & f & H1 & H2 & H3 & H4)]; [done|].
      by exists patterns, pt, f.
    + intros (pats & pt & f & [= <-] & ?). right. eauto.
  - etrans; [apply (Hgen (∅, ∅) true)|]. cbn [snd].
    split.
    + intros [?%not_elem_of_empty|(pt & f & H1 & H2 & H3 & H4)]; [done|].
      by exists patterns, pt, f.
    + intros (pats & pt & f & [= <-] & ?). right. eauto.
Qed.

(** X8: what an exclude pattern removes. A file the pattern expands to is
    never returned. A directory the pattern expands to removes every file
    whose parent directory, as a string, starts with the directory's name:
    the files below it, and also the files of a sibling directory whose name
    continues the excluded one. *)
Theorem exclude_pattern_removes input_dir files patterns pattern file :
  (_add_files self input_dir).2 = Ok files →
  _exclude self = Some patterns → pattern ∈ patterns →
  file ∈ glob (_fs self) (PurePath.str (excluded_glob self input_dir pattern)) →
  (isdir (_fs self) file = false → PurePath.of_string file ∉ files)
  ∧ (isdir (_fs self) file = true →
     ∀ p, Py.startswith (_parent (_fs self) (PurePath.str p))
            (PurePath.str (PurePath.of_string file)) = true →
          p ∉ files).
Proof.
  intros Hfiles Hex Hpat Hglob.
  assert (∀ p, p ∈ files →
            passes self (rejected self input_dir).1
              (rejected self input_dir).2 p) as Hpass.
  { intros p Hp. eapply candidates_spec, returned_files_are_candidates; done. }
  split.
  - intros Hdir Hin. destruct (Hpass _ Hin) as (_ & _ & _ & Hrf & _).
    apply Hrf. apply (proj1 (rejected_spec input_dir _)). eauto 10.
  - intros Hdir p Hstart Hin. destruct (Hpass _ Hin) as (_ & _ & _ & _ & Hrd).
    rewrite Hrd in Hstart; [done|].
    apply (proj2 (rejected_spec input_dir _)). eauto 10.
Qed.
End Discovery.

(** ** Further properties: dispatch and loading *)

Lemma append_inv_head (s t u : string) : s +:+ t = s +:+ u → t = u.
Proof. induction s as [|c s IH]; simpl; [done|]. intros [= H]. by apply IH. Qed.

Lemma getitem_app {V} (d1 d2 : Dict.t V) k :
  Dict.getitem (d1 ++ d2) k
  = match Dict.getitem d1 k with
    | Some v => Some v
    | None => Dict.getitem d2 k
    end.
Proof.
  induction d1 as [|[k' v'] d1 IH]; simpl; [done|].
  by destruct (String.eqb k k').
Qed.

Lemma getitem_none {V} (d : Dict.t V) k :
  Dict.getitem d k = None ↔ Dict.contains d k = false.
Proof.
  unfold Dict.contains, Dict.keys.
  induction d as [|[k' v'] d IH]; simpl; [done|].
  destruct (String.eqb k k'); simpl; [split; done|done].
Qed.

Lemma getitem_filter_absent {V} (caller d : Dict.t V) k :
  Dict.getitem (List.filter (λ e, negb (Dict.contains caller e.1)) d) k
  = if Dict.contains caller k then None else Dict.getitem d k.
Proof.
  induction d as [|[k' v'] d IH]; simpl; [by destruct (Dict.contains caller k)|].
  destruct (Dict.contains caller k') eqn:Hc; simpl.
  - rewrite IH. destruct (String.eqb_spec k k') as [-> | _]; [by rewrite Hc|done].
  - rewrite IH. destruct (String.eqb_spec k k') as [-> | _]; [by rewrite Hc|done].
Qed.

Lemma ok_of_test {A} (r : res A) :
  match r with Ok _ => true | Raise _ => false end = true → ∃ a, r = Ok a.
Proof. destruct r as [a|e]; [by exists a|done]. Qed.

Section Loading.
Context (config : Config) (host : Host) (keys : GlobalMetadata)
        (default_file_readers : loc).

Abbreviation load_data := (_load_data config host default_file_readers).
Abbreviation run_on := (run_task config host default_file_readers).

(** What [load_file] returns for a file whose first matching entry's reader
    returns. *)
Lemma load_file_matched f genf registry enc fs md e out :
  List.find (λ e, matches host f e.1) registry = Some e →
  instantiate e.2 f (reader_kwargs fs) = Ok out →
  let gen := match genf with Some g => g (PurePath.str f) | None => ∅ end in
  let merged :=
    (λ doc, set_global_metadata doc
              (merge_metadata gen (_global_metadata doc) (Py.or_default md ∅)))
      <$> match out with OneNode d => [d] | NodeList ds => ds end in
  load_file config host f genf registry enc fs md
  = ([], Ok (if rag_filename_as_id config
             then imap (λ i doc, set_uid doc (PurePath.str f +:+ "_index_"
                                              +:+ pretty i)) merged
             else merged)).
Proof.
  intros Hfind Hout gen merged. unfold load_file.
  rewrite load_file_loop_find, Hfind. unfold dispatch. by rewrite Hout.
Qed.

Lemma pool_empty_batch self show n fs oracle h :
  (1 ≤ n)%Z → tasks_of self = [] →
  value (load_data self show (Some n) fs oracle h).2 = None.
Proof.
  intros Hn Hempty. unfold _load_data, tasks_of in *.
  destruct (build_file_readers _ _ _) as [h' fr]. cbn [snd].
  rewrite (proj2 (Z.leb_le 1 n)) by done. rewrite Hempty.
  by destruct (Z.of_nat (cpu_count host) <? n)%Z.
Qed.

Lemma load_data_docs self show nw fs oracle h docs :
  value (load_data self show nw fs oracle h).2 = Some docs →
  ∃ rs, docs = _exclude_metadata (concat rs).
Proof.
  assert (value (load_data self show None fs oracle h).2 = Some docs →
          ∃ rs, docs = _exclude_metadata (concat rs)) as Hseq.
  { rewrite sequential_value. destruct (mapM _ _) as [rs|]; [|done].
    intros [= <-]. by exists rs. }
  destruct nw as [n|]; [|done].
  destruct (Z.le_gt_cases 1 n) as [Hn|Hn].
  - destruct (decide (tasks_of self = [])) as [Hempty|Hne].
    + by rewrite pool_empty_batch.
    + rewrite parallel_value by done. destruct (mapM _ _) as [rs|]; [|done].
      intros [= <-]. by exists rs.
  - by rewrite sequential_value_nonpositive by lia.
Qed.

(** X9: every node a load returns, in either mode, has the six file keys
    at the end of both of its exclusion lists. *)
Theorem loaded_nodes_hide_file_keys self show nw fs oracle h docs d :
  value (load_data self show nw fs oracle h).2 = Some docs →
  d ∈ docs →
  file_keys `suffix_of` _excluded_embed_metadata_keys d
  ∧ file_keys `suffix_of` _excluded_llm_metadata_keys d.
Proof.
  intros [rs ->]%load_data_docs. unfold _exclude_metadata.
  intros (d0 & -> & _)%list_elem_of_fmap. cbn.
  split; by eexists.
Qed.

(** X10: with [rag_filename_as_id] set, the nodes of a matched file are
    numbered: node [i] gets the identity [<path>_index_<i>], so the identities
    of one file's nodes are pairwise distinct; without the flag the identities
    are the reader's. Nodes are values here, that is, the reader's list holds
    no node object twice; [number_nodes] has the loop on objects. *)
Theorem filename_as_id_numbers_the_nodes f genf registry enc fs md e out :
  List.find (λ e, matches host f e.1) registry = Some e →
  instantiate e.2 f (reader_kwargs fs) = Ok out →
  let nodes := match out with OneNode d => [d] | NodeList ds => ds end in
  ∃ docs,
    (load_file config host f genf registry enc fs md).2 = Ok docs
    ∧ length docs = length nodes
    ∧ (rag_filename_as_id config = true →
       (∀ i d, docs !! i = Some d →
          _uid d = Some (PurePath.str f +:+ "_index_" +:+ pretty i))
       ∧ NoDup (_uid <$> docs))
    ∧ (rag_filename_as_id config = false → _uid <$> docs = _uid <$> nodes).
Proof.
  intros Hfind Hout nodes.
  rewrite (load_file_matched _ _ _ _ _ _ _ _ Hfind Hout). cbv zeta. fold nodes.
  eexists. split; [reflexivity|].
  destruct (rag_filename_as_id config).
  - rewrite length_imap, length_fmap. split; [done|]. split; [|done].
    intros _.
    assert (∀ i d,
      imap (λ i doc, set_uid doc (PurePath.str f +:+ "_index_" +:+ pretty i))
        ((λ doc, set_global_metadata doc
                   (merge_metadata
                      match genf with Some g => g (PurePath.str f) | None => ∅ end
                      (_global_metadata doc) (Py.or_default md ∅))) <$> nodes)
        !! i = Some d →
      _uid d = Some (PurePath.str f +:+ "_index_" +:+ pretty i)) as Huid.
    { intros i d. rewrite list_lookup_imap, list_lookup_fmap.
      destruct (nodes !! i); [|done]. cbn. by intros [= <-]. }
    split; [done|]. apply NoDup_alt. intros i j u.
    rewrite !list_lookup_fmap.
    destruct (imap _ _ !! i) as [di|] eqn:Hi; [|done].
    destruct (imap _ _ !! j) as [dj|] eqn:Hj; [|done].
    cbn. rewrite (Huid _ _ Hi), (Huid _ _ Hj). intros [= <-] [= Heq].
    apply append_inv_head, append_inv_head in Heq. by apply (inj pretty).
  - rewrite length_fmap. split; [done|]. split; [done|]. intros _.
    rewrite <- list_fmap_compose. done.
Qed.

(** X11: for a file matched by a registry pattern, the reader's nodes
    come back in the reader's order and with the reader's text, and each
    one's metadata record gives, for every key, the caller's value if the
    caller supplied the key, else the value the reader attached, else the
    generated value. *)
Theorem matched_nodes_follow_the_precedence f genf registry enc fs md e out :
  List.find (λ e, matches host f e.1) registry = Some e →
  instantiate e.2 f (reader_kwargs fs) = Ok out →
  let nodes := match out with OneNode d => [d] | NodeList ds => ds end in
  let gen := match genf with Some g => g (PurePath.str f) | None => ∅ end in
  ∃ docs,
    load_file config host f genf registry enc fs md = ([], Ok docs)
    ∧ text <$> docs = text <$> nodes
    ∧ ∀ i r, nodes !! i = Some r →
        ∃ d m, docs !! i = Some d ∧ _global_metadata d = Some m
          ∧ ∀ k, m !! k
                 = match Py.or_default md ∅ !! k with
                   | Some v => Some v
                   | None =>
                       match Py.or_default (_global_metadata r) ∅ !! k with
                       | Some v => Some v
                       | None => gen !! k
                       end
                   end.
Proof.
  intros Hfind Hout nodes gen.
  rewrite (load_file_matched _ _ _ _ _ _ _ _ Hfind Hout). cbv zeta.
  fold nodes gen. eexists. split; [reflexivity|].
  assert (∀ k (a u : MetadataRecord),
            merge_metadata gen (Some a) u !! k
            = match u !! k with
              | Some v => Some v
              | None => match a !! k with Some v => Some v | None => gen !! k end
              end) as Hmerge.
  { intros k a u. unfold merge_metadata, update. cbn.
    rewrite !lookup_union. destruct (u !! k), (a !! k), (gen !! k); done. }
  assert (∀ r k, merge_metadata gen (_global_metadata r) (Py.or_default md ∅) !! k
            = match Py.or_default md ∅ !! k with
              | Some v => Some v
              | None =>
                  match Py.or_default (_global_metadata r) ∅ !! k with
                  | Some v => Some v
                  | None => gen !! k
                  end
              end) as Hm.
  { intros r k. destruct (_global_metadata r) as [a|]; [apply Hmerge|].
    cbn. unfold merge_metadata, update. cbn.
    rewrite !lookup_union, lookup_empty.
    destruct (Py.or_default md ∅ !! k), (gen !! k); done. }
  destruct (rag_filename_as_id config).
  - split.
    + apply list_eq. intros i.
      rewrite !list_lookup_fmap, list_lookup_imap, list_lookup_fmap.
      by destruct (nodes !! i).
    + intros i r Hr. eexists _, _.
      rewrite list_lookup_imap, list_lookup_fmap, Hr. cbn.
      split; [reflexivity|]. split; [reflexivity|]. apply Hm.
  - split.
    + rewrite <- list_fmap_compose. done.
    + intros i r Hr. eexists _, _. rewrite list_lookup_fmap, Hr. cbn.
      split; [reflexivity|]. split; [reflexivity|]. apply Hm.
Qed.

(** X13: the registry of a load has unique keys, and looking a pattern up
    in it gives the caller's extractor when the caller registered the
    pattern, else the default one. *)
Theorem registry_lookup self h :
  is_Some (h !! default_file_readers) →
  Dict.wf (deref h (_file_extractor self)) →
  Dict.wf (deref h default_file_readers) →
  Dict.wf (registry_of default_file_readers self h)
  ∧ ∀ pattern,
      Dict.getitem (registry_of default_file_readers self h) pattern
      = match Dict.getitem (deref h (_file_extractor self)) pattern with
        | Some extractor => Some extractor
        | None => Dict.getitem (deref h default_file_readers) pattern
        end.
Proof.
  intros Hdom Hwc Hwd. rewrite registry_of_merged by done.
  set (caller := deref h (_file_extractor self)) in *.
  set (defaults := deref h default_file_readers) in *. split.
  - unfold Dict.wf, Dict.keys in *. rewrite fmap_app. apply NoDup_app.
    split; [done|]. split.
    + intros k Hk (e & -> & He)%list_elem_of_fmap.
      apply list_elem_of_In, filter_In in He as [_ Hc].
      apply contains_true in Hk. by rewrite Hk in Hc.
    + clear Hwc. induction defaults as [|[k v] d IH]; [constructor|].
      apply NoDup_cons in Hwd as [Hk Hd]. cbn [List.filter fst].
      destruct (negb (Dict.contains caller k)); [|by apply IH].
      cbn. apply NoDup_cons. split; [|by apply IH].
      intros (e & Heq & He)%list_elem_of_fmap.
      apply list_elem_of_In, filter_In in He as [He _]. apply Hk.
      apply list_elem_of_fmap. exists e. split; [done|].
      by apply list_elem_of_In.
  - intros pattern. rewrite getitem_app, getitem_filter_absent.
    destruct (Dict.getitem caller pattern) eqn:Hg; [done|].
    apply getitem_none in Hg. by rewrite Hg.
Qed.

Lemma load_loop_ok run tasks acc :
  (∀ u, u ∈ tasks → ∃ docs, (run u).2 = Ok docs) →
  ∃ docs, load_loop run tasks acc
          = (concat ((λ u, (run u).1) <$> tasks), Ok docs).
Proof.
  revert acc. induction tasks as [|t tasks IH]; intros acc Hall.
  - by exists acc.
  - destruct (Hall t) as [docs Hdocs]; [left|].
    cbn [load_loop]. destruct (run t) as [evs r] eqn:Hrun. cbn in Hdocs.
    subst r. cbn [mbind Eff_bind].
    destruct (IH (acc ++ docs)) as [out Hout]; [intros; apply Hall; by right|].
    rewrite Hout. exists out. cbn. by rewrite Hrun.
Qed.

Lemma load_loop_raises run pre t post acc e :
  (∀ u, u ∈ pre → ∃ docs, (run u).2 = Ok docs) →
  (run t).2 = Raise e →
  load_loop run (pre ++ t :: post) acc
  = (concat ((λ u, (run u).1) <$> pre) ++ (run t).1, Raise e).
Proof.
  revert acc. induction pre as [|u pre IH]; intros acc Hall Ht.
  - cbn [app load_loop]. destruct (run t) as [evs r]. cbn in Ht. by subst r.
  - destruct (Hall u) as [docs Hdocs]; [left|].
    cbn [app load_loop]. destruct (run u) as [evs r] eqn:Hrun. cbn in Hdocs.
    subst r. cbn [mbind Eff_bind].
    rewrite IH by (try done; intros; apply Hall; by right).
    cbn. rewrite Hrun. cbn. by rewrite app_assoc.
Qed.

(** X14: a sequential load goes through the files in list order and
    stops at the first file whose load raises: it raises that file's
    exception, and its log holds the records of the files up to and
    including that one, in order. When no file raises, the log holds the
    records of all files in list order. *)
Theorem sequential_load_stops_at_the_first_failure self show fs oracle h :
  let out := (load_data self show None fs oracle h).2 in
  ((∀ u, u ∈ tasks_of self → ∃ docs, (run_on self h u).2 = Ok docs) →
   events out = concat ((λ u, (run_on self h u).1) <$> tasks_of self)
   ∧ ∃ docs, out.2 = Ok docs)
  ∧ (∀ pre t post e,
       tasks_of self = pre ++ t :: post →
       (∀ u, u ∈ pre → ∃ docs, (run_on self h u).2 = Ok docs) →
       (run_on self h t).2 = Raise e →
       out = (concat ((λ u, (run_on self h u).1) <$> pre) ++ (run_on self h t).1,
              Raise e)).
Proof.
  cbv zeta. unfold _load_data.
  destruct (build_file_readers _ _ _) as [h' fr] eqn:Hb. cbn [snd].
  fold (tasks_of self).
  set (run := λ '(input_file, metadata), load_file config host input_file _ _ _ _ metadata).
  assert (∀ t, run t = run_on self h t) as Hext.
  { intros [f m]. unfold run, run_task, registry_of. by rewrite Hb. }
  assert (∀ tasks acc, load_loop run tasks acc
                       = load_loop (run_on self h) tasks acc) as Hloop.
  { induction tasks as [|t tasks IH]; intros acc; [done|].
    cbn [load_loop]. rewrite Hext.
    destruct (run_on self h t) as [evs [docs|e]]; [|done].
    cbn [mbind Eff_bind]. by rewrite IH. }
  rewrite Hloop. split.
  - intros Hall. destruct (load_loop_ok (run_on self h) (tasks_of self) [] Hall)
      as [docs ->].
    cbn. rewrite app_nil_r. split; [done|]. by eexists.
  - intros pre t post e Htasks Hpre Ht.
    by rewrite Htasks, (load_loop_raises _ _ _ _ _ e).
Qed.

Lemma default_metadata_path fs file_path :
  NoDup (generated_keys keys) →
  _DefaultFileMetadataFunc host keys fs file_path !! RAG_DOC_PATH keys
  = Some (VStr file_path).
Proof.
  intros Hnd. unfold generated_keys in Hnd.
  apply NoDup_cons in Hnd as [Hp _].
  repeat match goal with
         | H : _ ∉ _ :: _ |- _ => apply not_elem_of_cons in H as [? H]
         end.
  unfold _DefaultFileMetadataFunc. rewrite lookup_omap.
  by simplify_map_eq.
Qed.

(** X17: with the default metadata generator, every node of a matched
    file records the file's path under [RAG_DOC_PATH], unless the reader or
    the caller set that key themselves. *)
Theorem matched_nodes_record_the_path f gfs registry enc fs md e out i r :
  NoDup (generated_keys keys) →
  List.find (λ e, matches host f e.1) registry = Some e →
  instantiate e.2 f (reader_kwargs fs) = Ok out →
  match out with OneNode d => [d] | NodeList ds => ds end !! i = Some r →
  Py.or_default (_global_metadata r) ∅ !! RAG_DOC_PATH keys = None →
  Py.or_default md ∅ !! RAG_DOC_PATH keys = None →
  ∃ docs d m,
    load_file config host f (Some (_DefaultFileMetadataFunc host keys gfs))
      registry enc fs md = ([], Ok docs)
    ∧ docs !! i = Some d ∧ _global_metadata d = Some m
    ∧ m !! RAG_DOC_PATH keys = Some (VStr (PurePath.str f)).
Proof.
  intros Hnd Hfind Hout Hr Hreader Huser.
  rewrite (load_file_matched _ _ _ _ _ _ _ _ Hfind Hout). cbv zeta.
  assert (merge_metadata (_DefaultFileMetadataFunc host keys gfs (PurePath.str f))
            (_global_metadata r) (Py.or_default md ∅) !! RAG_DOC_PATH keys
          = Some (VStr (PurePath.str f))) as Hm.
  { unfold merge_metadata, update. rewrite !lookup_union, Huser, Hreader.
    by rewrite default_metadata_path. }
  destruct (rag_filename_as_id config); eexists _, _, _.
  - split; [reflexivity|].
    rewrite list_lookup_imap, list_lookup_fmap, Hr. cbn.
    split; [reflexivity|]. split; [reflexivity|]. exact Hm.
  - split; [reflexivity|]. rewrite list_lookup_fmap, Hr. cbn.
    split; [reflexivity|]. split; [reflexivity|]. exact Hm.
Qed.
End Loading.

(** ** Further properties: letter case in dispatch *)

Lemma lower_char_eqb_slash c :
  Ascii.eqb (Py.lower_char c) "/"%char = Ascii.eqb c "/"%char.
Proof. by destruct c as [[] [] [] [] [] [] [] []]. Qed.

Lemma lower_char_slash c : Py.lower_char c = "/"%char ↔ c = "/"%char.
Proof. destruct c as [[] [] [] [] [] [] [] []]; by vm_compute. Qed.

Lemma lower_char_star c : Py.lower_char c = "*"%char ↔ c = "*"%char.
Proof. destruct c as [[] [] [] [] [] [] [] []]; by vm_compute. Qed.

Lemma lower_app s t : Py.lower (s +:+ t) = Py.lower s +:+ Py.lower t.
Proof. induction s as [|c s IH]; simpl; [done|]. by rewrite IH. Qed.

Lemma lower_eqb_empty s :
  String.eqb (Py.lower s) EmptyString = String.eqb s EmptyString.
Proof. by destruct s. Qed.

Lemma lower_char_eqb_dot c :
  Ascii.eqb (Py.lower_char c) "."%char = Ascii.eqb c "."%char.
Proof. by destruct c as [[] [] [] [] [] [] [] []]. Qed.

Lemma lower_eqb_dot s : String.eqb (Py.lower s) "." = String.eqb s ".".
Proof.
  destruct s as [|c [|d s]]; simpl; try done.
  - by rewrite lower_char_eqb_dot.
  - rewrite lower_char_eqb_dot. by destruct (Ascii.eqb c ".").
Qed.

Lemma split_lower s :
  Py.split "/"%char (Py.lower s) = Py.lower <$> Py.split "/"%char s.
Proof.
  induction s as [|c s IH]; simpl; [done|].
  rewrite lower_char_eqb_slash, IH.
  destruct (Ascii.eqb c "/"); [done|].
  by destruct (Py.split "/" s).
Qed.

Lemma startswith_lower s p :
  caseless p → Py.startswith (Py.lower s) p = Py.startswith s p.
Proof.
  unfold Py.startswith. revert s.
  induction p as [|c p IH]; intros s Hp; [by destruct s|].
  destruct s as [|d s]; [done|]. simpl.
  assert (caseless p) as Hp' by (intros x Hx; apply Hp; by right).
  pose proof (Hp c (or_introl eq_refl) d) as Hc.
  destruct (ascii_dec c (Py.lower_char d)) as [H1|H1],
           (ascii_dec c d) as [H2|H2]; try done; try by apply IH.
  - exfalso. apply H2. symmetry. by apply Hc.
  - exfalso. apply H1. symmetry. by apply Hc.
Qed.

Lemma caseless_slash1 : caseless "/".
Proof. intros c [<-|[]] d. apply lower_char_slash. Qed.
Lemma caseless_slash2 : caseless "//".
Proof. intros c [<-|[<-|[]]] d; apply lower_char_slash. Qed.
Lemma caseless_slash3 : caseless "///".
Proof. intros c [<-|[<-|[<-|[]]]] d; apply lower_char_slash. Qed.
Lemma caseless_star : caseless "*".
Proof. intros c [<-|[]] d. apply lower_char_star. Qed.

Lemma of_string_lower s :
  PurePath.of_string (Py.lower s) = Py.lower <$> PurePath.of_string s.
Proof.
  unfold PurePath.of_string.
  rewrite !startswith_lower
    by (apply caseless_slash1 || apply caseless_slash2 || apply caseless_slash3).
  rewrite fmap_app. f_equal.
  - destruct (Py.startswith s "/"); [|done].
    by destruct (Py.startswith s "//" && negb (Py.startswith s "///")).
  - rewrite split_lower. induction (Py.split "/" s) as [|x l IH]; [done|].
    cbn [fmap list_fmap List.filter].
    rewrite lower_eqb_empty, lower_eqb_dot.
    destruct (negb _); cbn; by rewrite <- IH.
Qed.

Lemma join_lower sep l :
  Py.lower (Py.join sep l) = Py.join (Py.lower sep) (Py.lower <$> l).
Proof.
  induction l as [|x [|y l] IH]; try done.
  change (Py.join sep (x :: y :: l)) with (x +:+ sep +:+ Py.join sep (y :: l)).
  rewrite !lower_app, IH. done.
Qed.

Lemma str_lower (p : PurePath.t) :
  Py.lower (PurePath.str p) = PurePath.str (Py.lower <$> p).
Proof.
  destruct p as [|r rest]; [done|].
  cbn [PurePath.str fmap list_fmap]. unfold PurePath.is_root.
  rewrite startswith_lower by apply caseless_slash1.
  destruct (Py.startswith r "/").
  - by rewrite lower_app, (join_lower "/").
  - apply (join_lower "/" (r :: rest)).
Qed.

(** X12: dispatch ignores the case of ASCII letters, in the file name and
    in the pattern alike: two patterns that differ only in case match the
    same files, and two paths whose parts differ only in case are matched by
    the same patterns. *)
Theorem matching_ignores_case (host : Host) (f1 f2 : PurePath.t)
    (pattern1 pattern2 : string) :
  Py.lower <$> f1 = Py.lower <$> f2 →
  Py.lower pattern1 = Py.lower pattern2 →
  matches host f1 pattern1 = matches host f2 pattern2.
Proof.
  intros Hf Hp. unfold matches, match_pattern.
  rewrite !str_lower, Hf. rewrite <- !of_string_lower, Hp. done.
Qed.

(** ** Further properties: the file reader *)

Lemma filter_contains_nil {V} (d : Dict.t V) :
  List.filter (λ e, negb (Dict.contains ([] : Dict.t V) e.1)) d = d.
Proof.
  induction d as [|e d IH]; [done|].
  cbn [List.filter Dict.contains Dict.keys fmap list_fmap existsb negb].
  f_equal. exact IH.
Qed.

Lemma omap_total_length {X Y} (f : X → option Y) (l : list X) :
  (∀ x, x ∈ l → is_Some (f x)) → length (omap f l) = length l.
Proof.
  induction l as [|x l IH]; intros Hall; [done|].
  destruct (Hall x) as [y Hy]; [left|]. cbn [omap list_omap]. rewrite Hy.
  cbn. f_equal. apply IH. intros; apply Hall; by right.
Qed.

Section FileReaderFacts.
Context (config : Config) (host : Host) (keys : GlobalMetadata)
        (default_file_readers : loc).
Context {Input : Type} (_lazyllm_get_file_list : Input → FileReader.file_list)
        (get_text : DocNode → string).

Abbreviation call :=
  (FileReader.__call__ config host keys default_file_readers
     _lazyllm_get_file_list get_text).

Lemma init_listed_files h p paths :
  (∀ q, q ∈ p :: paths → is_Some (resolved config (get_default_fs host) q)) →
  __init__ config host keys (FileReader.reader_args (p :: paths)) h
  = (<[fresh (dom h) := []]> h, ([], Ok (listed_reader config host keys h (p :: paths)))).
Proof.
  intros Hall. unfold __init__.
  cbn [Args.input_dir Args.input_files Args.file_extractor Args.fs
       Args.filename_as_id Args.encoding Args.exclude Args.recursive
       Args.exclude_hidden Args.required_exts Args.num_files_limit
       Args.metadatas Args.metadata_genf FileReader.reader_args
       negb andb orb Py.or_default from_option id alloc].
  by rewrite resolve_input_files_ok.
Qed.

(** X15: the file reader returns the empty list for an empty list of
    files, without building a reader; a single string is read as a list of
    one file; and a file that is found neither as given nor under the data
    root makes it raise, with the store as before. *)
Theorem file_reader_empty_and_missing input h :
  (FileReader.listed (_lazyllm_get_file_list input) = [] →
   call input h = (h, ([], Ok FileReader.NoFiles)))
  ∧ (∀ s input', _lazyllm_get_file_list input = FileReader.OnePath s →
                 _lazyllm_get_file_list input' = FileReader.Paths [s] →
                 call input h = call input' h)
  ∧ (∀ pre q post,
       FileReader.listed (_lazyllm_get_file_list input) = pre ++ q :: post →
       (∀ p, p ∈ pre → is_Some (resolved config (get_default_fs host) p)) →
       resolved config (get_default_fs host) q = None →
       call input h
       = (h, ([], Raise (ValueError ("File "
                                     +:+ Py.ospath_join (data_path config) q
                                     +:+ " does not exist."))))).
Proof.
  unfold FileReader.__call__. split; [by intros ->|]. split; [by intros s input' -> ->|].
  intros pre q post Hl Hpre Hq. rewrite Hl.
  assert ((length (pre ++ q :: post) =? 0) = false) as ->
    by (by destruct pre).
  unfold __init__.
  cbn [Args.input_dir Args.input_files Args.file_extractor Args.fs
       FileReader.reader_args negb Py.or_default from_option id alloc].
  assert (match pre ++ q :: post with _ :: _ => true | [] => false end = true)
    as -> by by destruct pre.
  cbn [negb andb orb]. by rewrite resolve_input_files_missing.
Qed.

(** X16: for a list of files that are all found, the file reader reads
    every file with the class table of default readers and the default
    metadata generator, in the order of the list, and returns the texts of
    the nodes joined by newlines; it raises when the load of a file raises;
    and it leaves every dictionary of the store as it was. *)
Theorem file_reader_joins_the_texts input h p paths :
  FileReader.listed (_lazyllm_get_file_list input) = p :: paths →
  (∀ q, q ∈ p :: paths → is_Some (resolved config (get_default_fs host) q)) →
  is_Some (h !! default_file_readers) →
  Dict.wf (deref h default_file_readers) →
  let fs := get_default_fs host in
  let read (f : PurePath.t) :=
    load_file config host f (Some (_DefaultFileMetadataFunc host keys (Some fs)))
      (deref h default_file_readers) "utf-8" (Some fs) None in
  let files := omap (λ q, PurePath.of_string <$> resolved config fs q) (p :: paths) in
  value (call input h).2
  = (λ per_file,
       FileReader.Text
         (Py.join FileReader.newline
            (get_text <$> _exclude_metadata (concat per_file))))
      <$> mapM (λ f, value (read f)) files
  ∧ length files = length (p :: paths)
  ∧ ∀ l, l ∈ dom h → (call input h).1 !! l = h !! l.
Proof.
  intros Hl Hall Hdom Hwf fs read files.
  assert (default_file_readers ≠ fresh (dom h)) as Hne.
  { intros Heq. apply elem_of_dom in Hdom. rewrite Heq in Hdom.
    by apply is_fresh in Hdom. }
  set (h1 := <[fresh (dom h) := []]> h).
  set (self := listed_reader config host keys h (p :: paths)).
  assert (registry_of default_file_readers self h1
          = deref h default_file_readers) as Hreg.
  { rewrite registry_of_merged.
    - unfold self, h1, deref. cbn [_file_extractor listed_reader].
      rewrite lookup_insert_eq, lookup_insert_ne by done. cbn.
      apply filter_contains_nil.
    - unfold h1. by rewrite lookup_insert_ne.
    - unfold h1, deref. by rewrite lookup_insert_ne. }
  unfold FileReader.__call__. rewrite Hl. cbn [length Nat.eqb].
  rewrite init_listed_files by done. fold h1 self.
  pose proof (sequential_value config host default_file_readers self false
                None [] h1) as Hval.
  pose proof (load_data_heap config host default_file_readers self false None
                None [] h1) as Hheap.
  destruct (_load_data config host default_file_readers self false None None
              [] h1) as [h2 [evs r]].
  cbn [fst snd] in *. split; [|split].
  - unfold value in *. cbn [snd] in *.
    assert (mapM (λ t, match (run_task config host default_file_readers self h1 t).2
                       with Ok a => Some a | Raise _ => None end)
              (tasks_of self)
            = mapM (λ f, match (read f).2 with Ok a => Some a | Raise _ => None end)
                files) as Hmap.
    { assert (tasks_of self = (λ f, (f, None)) <$> files) as -> by done.
      assert (∀ f, run_task config host default_file_readers self h1 (f, None)
                   = read f) as Hrun
        by (intros f; unfold run_task; by rewrite Hreg).
      clear -Hrun. generalize files. intros fl.
      induction fl as [|f fl IH]; [done|].
      cbn [fmap list_fmap mapM]. cbn [fmap list_fmap] in IH.
      by rewrite IH, Hrun. }
    rewrite Hmap in Hval. destruct r as [nodes|e].
    + destruct (mapM _ files) as [per_file|]; [|done].
      cbn in *. by injection Hval as ->.
    + by destruct (mapM _ files).
  - unfold files. rewrite (omap_total_length _ (p :: paths)); [done|].
    intros q Hq. apply fmap_is_Some. by apply Hall.
  - intros l Hin. rewrite Hheap. rewrite build_file_readers_frame.
    + unfold h1. apply lookup_insert_ne. intros <-. by apply is_fresh in Hin.
    + assert (l ∈ dom h1) as Hin1.
      { unfold h1. rewrite dom_insert. apply elem_of_union. by right. }
      intros ->. by apply is_fresh in Hin1.
Qed.
End FileReaderFacts.

(** ** Further properties: numbering of shared node objects *)

Lemma set_uid_twice d a b : set_uid (set_uid d a) b = set_uid d b.
Proof. done. Qed.

Lemma index_uid_inj f i j : index_uid f i = index_uid f j → i = j.
Proof.
  unfold index_uid. intros Heq.
  apply append_inv_head, append_inv_head in Heq. by apply (inj pretty).
Qed.

Lemma number_from_frame f i docs store r :
  r ∉ docs → number_from f i docs store !! r = store !! r.
Proof.
  revert i store. induction docs as [|x docs IH]; intros i store Hr; [done|].
  apply not_elem_of_cons in Hr as [Hx Hr]. cbn [number_from].
  rewrite IH by done. by apply lookup_alter_ne.
Qed.

Lemma number_from_last f i docs store k r :
  docs !! k = Some r →
  (∀ k', k < k' → docs !! k' ≠ Some r) →
  number_from f i docs store !! r
  = (λ d, set_uid d (index_uid f (i + k))) <$> store !! r.
Proof.
  revert i store k. induction docs as [|x docs IH]; intros i store k Hk Hlast;
    [done|].
  cbn [number_from]. destruct k as [|k].
  - injection Hk as ->. rewrite number_from_frame.
    + rewrite lookup_alter_eq, Nat.add_0_r. done.
    + intros (j & Hj)%list_elem_of_lookup. by apply (Hlast (S j)); [lia|].
  - rewrite (IH _ _ k) by (try done; intros k' Hk'; apply (Hlast (S k')); lia).
    replace (S i + k) with (i + S k) by lia.
    destruct (decide (x = r)) as [-> | Hne].
    + rewrite lookup_alter_eq. by destruct (store !! r).
    + by rewrite lookup_alter_ne.
Qed.

Lemma last_occurrence (docs : list nat) k r :
  docs !! k = Some r →
  ∃ m, k ≤ m ∧ docs !! m = Some r ∧ ∀ m', m < m' → docs !! m' ≠ Some r.
Proof.
  revert k. induction docs as [|x docs IH]; intros k Hk; [done|].
  destruct k as [|k].
  - injection Hk as ->. destruct (decide (r ∈ docs)) as [Hin|Hout].
    + apply list_elem_of_lookup in Hin as [j Hj].
      destruct (IH j Hj) as (m & _ & Hm & Hlast).
      exists (S m). split; [lia|]. split; [done|].
      intros [|m'] Hlt; [lia|]. apply Hlast. lia.
    + exists 0. split; [done|]. split; [done|].
      intros [|m'] Hlt Hm'; [lia|]. apply Hout.
      apply list_elem_of_lookup. by exists m'.
  - destruct (IH k Hk) as (m & Hle & Hm & Hlast).
    exists (S m). split; [lia|]. split; [done|].
    intros [|m'] Hlt; [lia|]. apply Hlast. lia.
Qed.


(** ** Further properties: the empty batch *)

Section LoadArguments.
Context (config : Config) (host : Host) (keys : GlobalMetadata)
        (default_file_readers : loc).

Abbreviation load_data := (_load_data config host default_file_readers).

Lemma tasks_of_nonempty self :
  _input_files self ≠ [] → tasks_of self ≠ [].
Proof.
  unfold tasks_of, zip_metadatas. destruct (_input_files self) as [|f fl]; [done|].
  intros _. by destruct (_metadatas self) as [[|m ms]|].
Qed.

(** X19: on an empty batch the two modes differ: the sequential load
    returns the empty list, the pool load raises, because [reduce] gets an
    empty sequence and no initial value. A reader object the constructor
    returned never has an empty batch. *)
Theorem empty_batch_pool_raises self show n fs oracle h :
  (tasks_of self = [] →
   (load_data self show None fs oracle h).2 = ([], Ok [])
   ∧ ((1 ≤ n)%Z →
      (load_data self show (Some n) fs oracle h).2.2
      = Raise (TypeError "reduce() of empty iterable with no initial value")))
  ∧ (∀ a h0 h1 evs, __init__ config host keys a h0 = (h1, (evs, Ok self)) →
                    tasks_of self ≠ []).
Proof.
  split.
  - intros Hempty. unfold _load_data, tasks_of in *.
    destruct (build_file_readers _ _ _) as [h' fr]. cbn [snd].
    rewrite Hempty. split; [done|]. intros Hn.
    rewrite (proj2 (Z.leb_le 1 n)) by done.
    by destruct (Z.of_nat (cpu_count host) <? n)%Z.
  - intros a h0 h1 evs Hinit. apply tasks_of_nonempty.
    by eapply init_input_files_nonempty.
Qed.
End LoadArguments.

(** ** The properties on explicit inputs *)

Import Fixture.

Lemma fallback_node_lacks_generated_metadata_witness :
  ∃ node,
    (load_file on H b_txt (Some size10) (default_file_readers_table readers)
       "utf-8" None None).2 = Ok [node]
    ∧ _global_metadata node = Some ∅
    ∧ _global_metadata node
      ≠ Some (merge_metadata {[ "file_size" := VInt 10 ]} None ∅).
Proof.
  apply (fallback_node_lacks_generated_metadata on H b_txt size10
           (default_file_readers_table readers) "utf-8" None None
           (bytes "hello") "hello" "file_size" (VInt 10)).
  - apply find_none_unmatched. vm_compute. reflexivity.
  - reflexivity.
  - vm_compute. reflexivity.
  - vm_compute. reflexivity.
  - vm_compute. reflexivity.
  - vm_compute. reflexivity.
Defined.






Lemma pool_size_is_the_requested_count_witness :
  events (_load_data on H class_loc docs_reader false (Some 8%Z) None [] heap0).2
  = [LOG WARNING "Specified num_workers exceed number of CPUs in the system. Setting `num_workers` down to the maximum CPU count.";
     POOL 8]
  ∧ cpu_count H < 8.
Proof.
  apply (pool_size_is_the_requested_count on H class_loc docs_reader false
           8%Z None [] heap0); vm_compute; done.
Defined.


Lemma add_files_sorted_unique_capped_witness :
  ∃ files,
    (_add_files capped_reader ["/"; "docs"]).2 = Ok files
    ∧ StronglySorted PurePath.le files
    ∧ NoDup files
    ∧ (∀ p, p ∈ files →
         p ∈ candidates capped_reader ["/"; "docs"]
         ∧ isdir (_fs capped_reader) (PurePath.str p) = false)
    ∧ StronglySorted PurePath.le
        (merge_sort PurePath.le (elements (candidates capped_reader ["/"; "docs"])))
    ∧ merge_sort PurePath.le (elements (candidates capped_reader ["/"; "docs"]))
      ≡ₚ elements (candidates capped_reader ["/"; "docs"])
    ∧ files = take 2 (merge_sort PurePath.le
                        (elements (candidates capped_reader ["/"; "docs"]))).
Proof.
  apply (proj2 (add_files_sorted_unique_capped capped_reader ["/"; "docs"])).
  apply (bool_decide_unpack _). vm_compute. exact I.
Defined.

Lemma unmatched_file_fallback_witness :
  ∃ node,
    load_file on H b_txt None (default_file_readers_table readers)
      "utf-8" None None
    = ([], Ok [node])
    ∧ text node = "hello".
Proof.
  apply (proj1 (unmatched_file_fallback on H b_txt None
                  (default_file_readers_table readers) "utf-8" None None
                  ltac:(apply find_none_unmatched; vm_compute; reflexivity))
           ltac:(reflexivity) (bytes "hello") "hello"
           ltac:(vm_compute; reflexivity) ltac:(vm_compute; reflexivity)).
Defined.

Lemma load_data_preserves_registries_witness :
  (_load_data on H class_loc batch_reader false (Some 2%Z) None [] heap_mine).1
    !! caller_loc = Some mine
  ∧ (_load_data on H class_loc batch_reader false (Some 2%Z) None [] heap_mine).1
      !! class_loc = Some (default_file_readers_table readers).
Proof.
  destruct (load_data_preserves_registries on H class_loc batch_reader false
              (Some 2%Z) None [] heap_mine
              ltac:(vm_compute; eauto) ltac:(vm_compute; eauto))
    as (Hcaller & Hclass & _).
  split.
  - etrans; [exact Hcaller|]. vm_compute. reflexivity.
  - etrans; [exact Hclass|]. vm_compute. reflexivity.
Defined.

Lemma hidden_input_dir_finds_nothing_witness :
  candidates docs_reader ["/"; "docs"; ".git"] = ∅
  ∧ (_add_files docs_reader ["/"; "docs"; ".git"]).2
    = Raise (ValueError "No files found in /docs/.git.").
Proof.
  apply (proj2 (hidden_input_dir_finds_nothing docs_reader ["/"; "docs"; ".git"]
                  ltac:(reflexivity) ltac:(reflexivity)
                  ltac:(intros ref Hin; vm_compute in Hin;
                        apply list_elem_of_singleton in Hin; subst ref;
                        exists [], ["config"]; reflexivity))).
Defined.

(** ** The further properties on explicit inputs *)

Import Cases.

Lemma default_metadata_fields_witness :
  _DefaultFileMetadataFunc H keys None "/docs/a.md" !! RAG_DOC_PATH keys
  = Some (VStr "/docs/a.md").
Proof.
  apply (proj1 (default_metadata_fields H keys None "/docs/a.md"
                  ltac:(apply (bool_decide_unpack _); vm_compute; exact I))).
Defined.

Lemma constructor_rejects_bad_arguments_witness :
  __init__ on H keys (args_files [] None) heap0
  = (heap0, ([], Raise (ValueError "Must provide either `input_dir` or `input_files`.")))
  ∧ __init__ on H keys (args_dir "/nowhere" None) heap0
    = (heap0, ([], Raise (ValueError "Directory /nowhere does not exist."))).
Proof.
  split.
  - apply (proj1 (constructor_rejects_bad_arguments on H keys
                    (args_files [] None) heap0)).
    reflexivity.
  - apply (proj2 (constructor_rejects_bad_arguments on H keys
                    (args_dir "/nowhere" None) heap0) "/nowhere");
      reflexivity.
Defined.

Lemma constructor_resolves_input_files_witness :
  ∃ h' self,
    __init__ on H keys (args_wide ["/docs/a.md"; "notes/n.md"]) heap0
    = (h', ([], Ok self))
    ∧ length (_input_files self) = 2
    ∧ ∀ i p, ["/docs/a.md"; "notes/n.md"] !! i = Some p →
        _input_files self !! i = PurePath.of_string <$> resolved on wide p.
Proof.
  apply (constructor_resolves_input_files on H keys
           (args_wide ["/docs/a.md"; "notes/n.md"]) heap0).
  - reflexivity.
  - reflexivity.
  - apply Forall_forall. apply (bool_decide_unpack _). vm_compute. exact I.
Defined.

Lemma constructor_missing_file_raises_witness :
  __init__ on H keys (args_wide ["/docs/a.md"; "zzz.md"; "notes/n.md"]) heap0
  = (heap0, ([], Raise (ValueError "File /data/zzz.md does not exist."))).
Proof.
  apply (constructor_missing_file_raises on H keys
           (args_wide ["/docs/a.md"; "zzz.md"; "notes/n.md"]) heap0
           ["/docs/a.md"] "zzz.md" ["notes/n.md"]).
  - reflexivity.
  - reflexivity.
  - apply Forall_forall. apply (bool_decide_unpack _). vm_compute. exact I.
  - vm_compute. reflexivity.
Defined.

Lemma constructor_keeps_registry_by_reference_witness :
  _file_extractor batch_reader = caller_loc
  ∧ (__init__ on H keys (args_files batch None) heap_mine).1 = heap_mine.
Proof.
  apply (proj2 (proj2 (constructor_keeps_registry_by_reference on H keys
                         (args_files batch None) heap_mine)) batch_reader).
  vm_compute. reflexivity.
Defined.

Lemma add_files_returns_what_passes_witness :
  (∃ ref, ref ∈ file_refs docs_reader docs_dir ∧ d_md = PurePath.of_string ref)
  ∧ passes docs_reader (rejected docs_reader docs_dir).1
      (rejected docs_reader docs_dir).2 d_md.
Proof.
  apply (proj1 (add_files_returns_what_passes docs_reader docs_dir
                  [a_md; b_txt; bin_dat; c_MD; d_md]
                  ltac:(vm_compute; reflexivity)) d_md).
  apply (list_elem_of_lookup_2 _ 4). reflexivity.
Defined.

Lemma add_files_cap_without_effect_witness :
  _add_files zero_cap_reader docs_dir
  = _add_files (with_num_files_limit zero_cap_reader None) docs_dir.
Proof.
  apply (add_files_cap_without_effect zero_cap_reader docs_dir 0%Z).
  - vm_compute. reflexivity.
  - left. lia.
Defined.

Lemma exclude_pattern_removes_witness :
  Py.startswith (_parent (_fs excluding_reader) (PurePath.str e_md))
    (PurePath.str (PurePath.of_string "/docs/sub")) = true
  ∧ e_md ∉ [a_md].
Proof.
  split; [vm_compute; reflexivity|].
  apply (proj2 (exclude_pattern_removes excluding_reader docs_dir [a_md]
                  ["sub"; "*.log"] "sub" "/docs/sub"
                  ltac:(vm_compute; reflexivity)
                  ltac:(vm_compute; reflexivity)
                  ltac:(left)
                  ltac:(apply (bool_decide_unpack _); vm_compute; exact I))
           ltac:(vm_compute; reflexivity) e_md).
  vm_compute. reflexivity.
Defined.

Lemma loaded_nodes_hide_file_keys_witness :
  file_keys `suffix_of` _excluded_embed_metadata_keys first_loaded
  ∧ file_keys `suffix_of` _excluded_llm_metadata_keys first_loaded.
Proof.
  apply (loaded_nodes_hide_file_keys on H class_loc docs_reader false None None
           [] heap0 loaded first_loaded).
  - vm_compute. reflexivity.
  - apply (list_elem_of_lookup_2 _ 0). vm_compute. reflexivity.
Defined.

Lemma filename_as_id_numbers_the_nodes_witness :
  ∃ docs,
    (load_file numbered H a_md (Some size10) paged "utf-8" None None).2 = Ok docs
    ∧ length docs = length pages
    ∧ (rag_filename_as_id numbered = true →
       (∀ i d, docs !! i = Some d →
          _uid d = Some (PurePath.str a_md +:+ "_index_" +:+ pretty i))
       ∧ NoDup (_uid <$> docs))
    ∧ (rag_filename_as_id numbered = false → _uid <$> docs = _uid <$> pages).
Proof.
  apply (filename_as_id_numbers_the_nodes numbered H a_md (Some size10) paged
           "utf-8" None None paged_entry (NodeList pages)).
  - vm_compute. reflexivity.
  - reflexivity.
Defined.

Lemma matched_nodes_follow_the_precedence_witness :
  ∃ docs,
    load_file on H a_md (Some size10) mine "utf-8" None (Some owner)
    = ([], Ok docs)
    ∧ text <$> docs = text <$> [mine_node]
    ∧ ∀ i r, [mine_node] !! i = Some r →
        ∃ d m, docs !! i = Some d ∧ _global_metadata d = Some m
          ∧ ∀ k, m !! k
                 = match Py.or_default (Some owner) ∅ !! k with
                   | Some v => Some v
                   | None =>
                       match Py.or_default (_global_metadata r) ∅ !! k with
                       | Some v => Some v
                       | None => size10 (PurePath.str a_md) !! k
                       end
                   end.
Proof.
  apply (matched_nodes_follow_the_precedence on H a_md (Some size10) mine
           "utf-8" None (Some owner) mine_entry (NodeList [mine_node])).
  - vm_compute. reflexivity.
  - reflexivity.
Defined.

Lemma matching_ignores_case_witness :
  matches H c_MD "*.MD" = matches H c_md "*.md".
Proof.
  apply (matching_ignores_case H c_MD c_md "*.MD" "*.md"); reflexivity.
Defined.

Lemma registry_lookup_witness :
  Dict.getitem (registry_of class_loc batch_reader heap_mine) "*.md"
  = match Dict.getitem (deref heap_mine (_file_extractor batch_reader)) "*.md" with
    | Some extractor => Some extractor
    | None => Dict.getitem (deref heap_mine class_loc) "*.md"
    end.
Proof.
  apply (proj2 (registry_lookup class_loc batch_reader heap_mine
                  ltac:(vm_compute; eauto)
                  ltac:(unfold Dict.wf; apply (bool_decide_unpack _);
                        vm_compute; exact I)
                  ltac:(unfold Dict.wf; apply (bool_decide_unpack _);
                        vm_compute; exact I))
           "*.md").
Defined.

Lemma sequential_load_stops_at_the_first_failure_witness :
  (_load_data on H class_loc late_failure_reader false None None [] heap_broken).2
  = (concat ((λ u, (run_task on H class_loc late_failure_reader heap_broken u).1)
               <$> [(b_txt, None)])
     ++ (run_task on H class_loc late_failure_reader heap_broken (a_md, None)).1,
     Raise (ReaderError "cannot parse /docs/a.md")).
Proof.
  apply (proj2 (sequential_load_stops_at_the_first_failure on H class_loc
                  late_failure_reader false None [] heap_broken)
           [(b_txt, None)] (a_md, None) [(bin_dat, None)]).
  - vm_compute. reflexivity.
  - intros u Hu. apply list_elem_of_singleton in Hu. subst u.
    apply ok_of_test. vm_compute. reflexivity.
  - vm_compute. reflexivity.
Defined.

Lemma file_reader_empty_and_missing_witness :
  FileReader.__call__ on H keys class_loc id text
    (FileReader.Paths ["/docs/a.md"; "zzz.md"]) heap0
  = (heap0, ([], Raise (ValueError ("File " +:+ Py.ospath_join (data_path on) "zzz.md"
                                    +:+ " does not exist.")))).
Proof.
  apply (proj2 (proj2 (file_reader_empty_and_missing on H keys class_loc id text
                         (FileReader.Paths ["/docs/a.md"; "zzz.md"]) heap0))
           ["/docs/a.md"] "zzz.md" []).
  - reflexivity.
  - apply Forall_forall. apply (bool_decide_unpack _). vm_compute. exact I.
  - vm_compute. reflexivity.
Defined.

Lemma file_reader_joins_the_texts_witness :
  value (FileReader.__call__ on H keys class_loc id text
           (FileReader.Paths ["/docs/a.md"; "/docs/b.txt"]) heap0).2
  = (λ per_file,
       FileReader.Text
         (Py.join FileReader.newline
            (text <$> _exclude_metadata (concat per_file))))
      <$> mapM (λ f, value (load_file on H f
                              (Some (_DefaultFileMetadataFunc H keys
                                       (Some (get_default_fs H))))
                              (deref heap0 class_loc) "utf-8"
                              (Some (get_default_fs H)) None))
            (omap (λ q, PurePath.of_string <$> resolved on (get_default_fs H) q)
                  ["/docs/a.md"; "/docs/b.txt"])
  ∧ length (omap (λ q, PurePath.of_string <$> resolved on (get_default_fs H) q)
                 ["/docs/a.md"; "/docs/b.txt"])
    = length ["/docs/a.md"; "/docs/b.txt"]
  ∧ ∀ l, l ∈ dom heap0 →
      (FileReader.__call__ on H keys class_loc id text
         (FileReader.Paths ["/docs/a.md"; "/docs/b.txt"]) heap0).1 !! l
      = heap0 !! l.
Proof.
  apply (file_reader_joins_the_texts on H keys class_loc id text
           (FileReader.Paths ["/docs/a.md"; "/docs/b.txt"]) heap0
           "/docs/a.md" ["/docs/b.txt"]).
  - reflexivity.
  - apply Forall_forall. apply (bool_decide_unpack _). vm_compute. exact I.
  - vm_compute. eauto.
  - unfold Dict.wf. apply (bool_decide_unpack _). vm_compute. exact I.
Defined.

Lemma matched_nodes_record_the_path_witness :
  ∃ docs d m,
    load_file on H a_md (Some (_DefaultFileMetadataFunc H keys None))
      (default_file_readers_table readers) "utf-8" None None = ([], Ok docs)
    ∧ docs !! 0 = Some d ∧ _global_metadata d = Some m
    ∧ m !! RAG_DOC_PATH keys = Some (VStr (PurePath.str a_md)).
Proof.
  apply (matched_nodes_record_the_path on H keys a_md None
           (default_file_readers_table readers) "utf-8" None None
           markdown_entry (NodeList [markdown_node]) 0 markdown_node).
  - apply (bool_decide_unpack _). vm_compute. exact I.
  - vm_compute. reflexivity.
  - reflexivity.
  - reflexivity.
  - reflexivity.
  - reflexivity.
Defined.


Lemma empty_batch_pool_raises_witness :
  (_load_data on H class_loc empty_reader false None None [] heap0).2
  = ([], Ok [])
  ∧ ((1 ≤ 2)%Z →
     (_load_data on H class_loc empty_reader false (Some 2%Z) None [] heap0).2.2
     = Raise (TypeError "reduce() of empty iterable with no initial value")).
Proof.
  apply (proj1 (empty_batch_pool_raises on H keys class_loc empty_reader false
                  2%Z None [] heap0)).
  reflexivity.
Defined.
